(** * psi: a Pressure Stall Information monitor (monitor.c)

    A shallow embedding of monitor.c.  The program keeps its state in
    global arrays; every function below is a computation over a record of
    those globals that also produces the sequence of library calls it
    makes (the trace) and may leave through [exit].  What the operating
    system answers (descriptors returned by [open], bytes delivered by
    [read], the value of [write] and [poll], the signals that arrive) is
    an input of the model. *)

From Stdlib Require Import ZArith String Ascii Bool Lia DecimalString.
From Stdlib Require Import List Permutation Sorted.
Import ListNotations.
Open Scope string_scope.
Open Scope Z_scope.
Open Scope list_scope.

(** ** Constants of monitor.c *)

Definition CPU_TRACKING_WINDOW_MS : Z := 500.
Definition IO_TRACKING_WINDOW_MS : Z := 1000.
Definition MEMORY_TRACKING_WINDOW_MS : Z := 750.
Definition MS_TO_US : Z := 1000.

Definition CPU_TRIGGER_THRESHOLD_MS : Z := 50.
Definition IO_TRIGGER_THRESHOLD_MS : Z := 100.
Definition MEMORY_TRIGGER_THRESHOLD_MS : Z := 75.

Definition CPU_PRESSURE_FILE : string := "/proc/pressure/cpu".
Definition IO_PRESSURE_FILE : string := "/proc/pressure/io".
Definition MEMORY_PRESSURE_FILE : string := "/proc/pressure/memory".

Definition FD_CPU_IDX : nat := 0.
Definition FD_IO_IDX : nat := 1.
Definition FD_MEMORY_IDX : nat := 2.

Definition SZ_IDX : nat := 3.
Definition SZ_CONTENT : nat := 128.
Definition SZ_EVENT : nat := 256.
Definition SZ_TIME : nat := 21.

Definition ERROR_KERNEL_UNSUPPORTED : Z := 1.
Definition ERROR_PRESSURE_OPEN : Z := 2.
Definition ERROR_PRESSURE_WRITE : Z := 3.
Definition ERROR_PRESSURE_POLL_FDS : Z := 4.
Definition ERROR_PRESSURE_FILE_GONE : Z := 5.
Definition ERROR_PRESSURE_EVENT_UNK : Z := 6.

(** Values of the system headers on Linux (poll.h, fcntl.h, signal.h). *)
Definition POLLIN : Z := 1.
Definition POLLPRI : Z := 2.
Definition POLLERR : Z := 8.
Definition POLLHUP : Z := 16.
Definition POLLNVAL : Z := 32.
Definition O_RDONLY : Z := 0.
Definition O_RDWR : Z := 2.
Definition O_NONBLOCK : Z := 2048.
Definition SIGINT : Z := 2.
Definition SIGTERM : Z := 15.

(** ** Machine integers and C strings *)

(** [int] is 32 bits wide, two's complement. *)
Definition wrap_int (z : Z) : Z := (z + 2 ^ 31) mod 2 ^ 32 - 2 ^ 31.
Definition INT_MAX : Z := 2 ^ 31 - 1.

Definition int_mul (a b : Z) : Z := wrap_int (a * b).
Definition int_add (a b : Z) : Z := wrap_int (a + b).

(** A C truth value: anything but zero. *)
Definition truthy (z : Z) : bool := negb (z =? 0).

Definition NUL : ascii := Ascii.zero.

(** A [char] array is a list of bytes of the array's length. *)
Definition buffer := list ascii.

(** [memset(buf, 0, n)] on an array of exactly [n] bytes. *)
Definition memset_zero (n : nat) : buffer := repeat NUL n.

(** The bytes before the first NUL of an array, when there is one. *)
Fixpoint until_nul (b : buffer) : option (list ascii) :=
  match b with
  | [] => None
  | c :: b' =>
      if Ascii.eqb c NUL then Some []
      else option_map (cons c) (until_nul b')
  end.

(** What [%s] or [strlen] sees in an array: the text up to the first NUL;
    [None] when the array holds no NUL, so that the scan runs past its
    end. *)
Definition c_str (b : buffer) : option string :=
  option_map string_of_list_ascii (until_nul b).

(** [%d] of printf. *)
Definition dec (z : Z) : string := NilZero.string_of_int (Z.to_int z).

(** Storing [k] bytes at the start of an array. *)
Definition store_prefix (data : list ascii) (b : buffer) : buffer :=
  data ++ skipn (length data) b.

(** [snprintf(buf, size, ...)] once the text is formatted: at most
    [size - 1] characters, then a NUL. *)
Definition snprintf (size : nat) (text : string) (b : buffer) : buffer :=
  store_prefix (firstn (size - 1) (list_ascii_of_string text) ++ [NUL]) b.

(** ** Globals *)

Record pollfd := mk_pollfd { fd : Z; events : Z; revents : Z }.

Record globals := mk_globals {
  fds : list pollfd;
  content_str : buffer;
  pressure_file : list string;
  time_str : string;
  delay_threshold_ms : list Z;
  tracking_window_ms : list Z;
  continue_event_loop : Z
}.

Definition pollfd0 : pollfd := mk_pollfd 0 0 0.

(** The globals as the loader leaves them: zeroed, the run flag 1. *)
Definition initial_globals : globals :=
  {| fds := repeat pollfd0 SZ_IDX;
     content_str := memset_zero SZ_CONTENT;
     pressure_file := repeat "" SZ_IDX;
     time_str := "";
     delay_threshold_ms := repeat 0 SZ_IDX;
     tracking_window_ms := repeat 0 SZ_IDX;
     continue_event_loop := 1 |}.

(** [a[i] = v]; the program only indexes inside the arrays. *)
Fixpoint upd {A} (i : nat) (v : A) (l : list A) : list A :=
  match l, i with
  | [], _ => []
  | _ :: l', O => v :: l'
  | x :: l', S i' => x :: upd i' v l'
  end.

Definition at_fds (g : globals) (i : nat) : pollfd := nth i (fds g) pollfd0.
Definition at_file (g : globals) (i : nat) : string := nth i (pressure_file g) "".
Definition at_window (g : globals) (i : nat) : Z := nth i (tracking_window_ms g) 0.
Definition at_threshold (g : globals) (i : nat) : Z := nth i (delay_threshold_ms g) 0.

Definition set_fds (v : list pollfd) (g : globals) : globals :=
  mk_globals v (content_str g) (pressure_file g) (time_str g)
             (delay_threshold_ms g) (tracking_window_ms g) (continue_event_loop g).
Definition set_content (v : buffer) (g : globals) : globals :=
  mk_globals (fds g) v (pressure_file g) (time_str g)
             (delay_threshold_ms g) (tracking_window_ms g) (continue_event_loop g).
Definition set_pressure_file (v : list string) (g : globals) : globals :=
  mk_globals (fds g) (content_str g) v (time_str g)
             (delay_threshold_ms g) (tracking_window_ms g) (continue_event_loop g).
Definition set_time (v : string) (g : globals) : globals :=
  mk_globals (fds g) (content_str g) (pressure_file g) v
             (delay_threshold_ms g) (tracking_window_ms g) (continue_event_loop g).
Definition set_threshold (v : list Z) (g : globals) : globals :=
  mk_globals (fds g) (content_str g) (pressure_file g) (time_str g)
             v (tracking_window_ms g) (continue_event_loop g).
Definition set_window (v : list Z) (g : globals) : globals :=
  mk_globals (fds g) (content_str g) (pressure_file g) (time_str g)
             (delay_threshold_ms g) v (continue_event_loop g).
Definition set_run (v : Z) (g : globals) : globals :=
  mk_globals (fds g) (content_str g) (pressure_file g) (time_str g)
             (delay_threshold_ms g) (tracking_window_ms g) v.

(** ** Traces *)

(** An argument of a printf call.  [ABuf] is a [%s] whose argument is a
    global array: [None] records that the array held no terminator. *)
Inductive arg :=
| AStr (s : string)
| AInt (z : Z)
| ABuf (s : option string).

Inductive event :=
| EPrintf (fmt : string) (args : list arg)
| EEprintf (fmt : string) (args : list arg)
| EFflush
| EStat (path : string) (ret : Z)
| EOpen (path : string) (flags : Z) (ret : Z)
| ERead (fd : Z) (count : nat) (ret : Z)
| EWrite (fd : Z) (data : list ascii) (ret : Z)
| EClose (fd : Z)
| EUsleep (usec : Z)
| ESignal (signum : Z)
| EPoll (timeout : Z) (ret : Z)
| ERun (v : Z).

(** ** Computations: globals, a trace, and [exit] *)

Inductive result (A : Type) :=
| Ret (a : A) (g : globals)
| Exit (code : Z).
Arguments Ret {A} a g.
Arguments Exit {A} code.

Definition M (A : Type) : Type := globals -> list event * result A.

Definition ret {A} (a : A) : M A := fun g => ([], Ret a g).

Definition bind {A B} (m : M A) (k : A -> M B) : M B :=
  fun g =>
    match m g with
    | (t, Ret a g') => let (t', r) := k a g' in (t ++ t', r)
    | (t, Exit c) => (t, Exit c)
    end.

Notation "x <- m ;; k" := (bind m (fun x => k))
  (at level 61, m at next level, right associativity).
Notation "m ;; k" := (bind m (fun _ => k))
  (at level 61, right associativity).

Definition get : M globals := fun g => ([], Ret g g).
Definition modify (f : globals -> globals) : M unit := fun g => ([], Ret tt (f g)).
Definition emit (e : event) : M unit := fun g => ([e], Ret tt g).
Definition exit {A} (code : Z) : M A := fun _ => ([], Exit code).

(** [for (int i = 0; i < SZ_IDX; i++)] over the indices in [l]. *)
Fixpoint for_each (l : list nat) (body : nat -> M unit) : M unit :=
  match l with
  | [] => ret tt
  | i :: l' => body i ;; for_each l' body
  end.

Definition trace_of {A} (r : list event * result A) : list event := fst r.
Definition outcome_of {A} (r : list event * result A) : result A := snd r.

(** ** The environment

    Format strings are kept as the source writes them (a backslash and an
    [n] for a line feed). *)

(** One [open]/[read] of a pressure file: the descriptor [open] returns
    and the bytes the file holds at that moment. *)
Record read_in := mk_read_in { ro_fd : Z; file : list ascii }.

(** Registration of one domain: the descriptor of the read-write [open],
    the file as the echo reads it, and what [write] returns. *)
Record reg_in := mk_reg_in { rw_fd : Z; echo : read_in; write_ret : Z }.

(** One domain in one return of [poll]: the [revents] the kernel stored,
    a termination signal handled just before the scan examines the
    domain (before the test [revents == 0 || continue_event_loop == 0]),
    the text [strftime] produces, the file as the report reads it, and a
    termination signal handled right after that test, before the test
    of POLLERR. *)
Record dom_in := mk_dom_in {
  d_revents : Z;
  d_signal : option Z;
  d_now : string;
  d_read : read_in;
  d_signal_after : option Z
}.

(** One return of [poll]: its value, a termination signal handled while
    the call was blocked, the three domains, and a termination signal
    handled right after the test [continue_event_loop == 0] that follows
    the call, before the test [n < 0]. *)
Record wake := mk_wake {
  w_ret : Z;
  w_signal : option Z;
  w_dom : nat -> dom_in;
  w_signal_after : option Z
}.

Record env := mk_env {
  e_stat : Z;
  e_start : string;
  e_reg : nat -> reg_in;
  e_wakes : list wake
}.

(** ** close_fds and sig_handler *)

(** The body of the [for] of close_fds. *)
Definition close_fd (i : nat) : M unit :=
  g <- get ;;
  emit (EEprintf "Closing file descriptor fds[%i] for %s\n"
                 [AInt (Z.of_nat i); AStr (at_file g i)]) ;;
  emit (EUsleep (int_mul (at_window g i) MS_TO_US)) ;;
  emit (EClose (fd (at_fds g i))).

Definition close_fds : M unit :=
  emit (EEprintf "Please wait until all three file descriptors are closed\n" []) ;;
  for_each (seq 0 SZ_IDX) close_fd ;;
  emit (EEprintf "\nAll file descriptors now closed, exiting now!\n" []).

Definition sig_handler (sig_num : Z) : M unit :=
  emit (EPrintf "\nTerminating in response to Ctrl+C \n" []) ;;
  emit (ESignal SIGINT) ;;
  emit (ESignal SIGTERM) ;;
  emit (ERun 0) ;;
  modify (set_run 0) ;;
  close_fds ;;
  emit EFflush.

(** ** set_time_str and set_content_str *)

Definition set_time_str (now : string) : M unit :=
  modify (set_time now).

(** [read] delivers the start of the file, at most [count] bytes; on a
    descriptor that [open] failed to produce it stores nothing and
    returns -1. *)
Definition read_bytes (r : read_in) (count : nat) : list ascii :=
  if ro_fd r <? 0 then [] else firstn count (file r).

Definition read_ret (r : read_in) (count : nat) : Z :=
  if ro_fd r <? 0 then -1 else Z.of_nat (List.length (read_bytes r count)).

Definition set_content_str (r : read_in) (psi_idx : nat) : M unit :=
  modify (fun g => set_content (store_prefix (memset_zero SZ_CONTENT) (content_str g)) g) ;;
  g <- get ;;
  emit (EOpen (at_file g psi_idx) (Z.lor O_NONBLOCK O_RDONLY) (ro_fd r)) ;;
  modify (fun g => set_content (store_prefix (read_bytes r SZ_CONTENT) (content_str g)) g) ;;
  emit (ERead (ro_fd r) SZ_CONTENT (read_ret r SZ_CONTENT)) ;;
  emit (EClose (ro_fd r)).

(** ** poll_pressure_events *)

(** The text of ["some %d %d"]. *)
Definition format_some (a b : Z) : string :=
  String.append "some " (String.append (dec a) (String.append " " (dec b))).

Definition strlen (b : buffer) : nat :=
  match until_nul b with
  | Some l => List.length l
  | None => List.length b
  end.

Definition set_fd (i : nat) (v : Z) (g : globals) : globals :=
  set_fds (upd i (mk_pollfd v (events (at_fds g i)) (revents (at_fds g i))) (fds g)) g.
Definition set_events (i : nat) (v : Z) (g : globals) : globals :=
  set_fds (upd i (mk_pollfd (fd (at_fds g i)) v (revents (at_fds g i))) (fds g)) g.
Definition set_revents (i : nat) (v : Z) (g : globals) : globals :=
  set_fds (upd i (mk_pollfd (fd (at_fds g i)) (events (at_fds g i)) v) (fds g)) g.

(** The array [distress_event] of one iteration, after the snprintf. *)
Definition distress_event (g : globals) (i : nat) : buffer :=
  snprintf SZ_EVENT
           (format_some (int_mul (at_threshold g i) MS_TO_US)
                        (int_mul (at_window g i) MS_TO_US))
           (memset_zero SZ_EVENT).

(** The body of the [for] of poll_pressure_events. *)
Definition register (reg : nat -> reg_in) (i : nat) : M unit :=
  g <- get ;;
  emit (EOpen (at_file g i) (Z.lor O_RDWR O_NONBLOCK) (rw_fd (reg i))) ;;
  modify (set_fd i (rw_fd (reg i))) ;;
  g <- get ;;
  if fd (at_fds g i) <? 0 then
    emit (EEprintf "Error open() pressure file %s:" [AStr (at_file g i)]) ;;
    exit ERROR_PRESSURE_OPEN
  else
    modify (set_events i POLLPRI) ;;
    g <- get ;;
    let ev := distress_event g i in
    emit (EPrintf "\n%s distress_event:\n%s\n" [AStr (at_file g i); ABuf (c_str ev)]) ;;
    set_content_str (echo (reg i)) i ;;
    g <- get ;;
    emit (EPrintf "%s content:\n%s\n" [AStr (at_file g i); ABuf (c_str (content_str g))]) ;;
    emit (EWrite (fd (at_fds g i)) (firstn (strlen ev + 1) ev) (write_ret (reg i))) ;;
    if write_ret (reg i) <? 0 then
      emit (EEprintf "Error write() pressure file: %s\n" [AStr (at_file g i)]) ;;
      exit ERROR_PRESSURE_WRITE
    else ret tt.

Definition poll_pressure_events (reg : nat -> reg_in) : M unit :=
  for_each (seq 0 SZ_IDX) (register reg).

(** ** pressure_event_loop *)

(** How the loop ended when it did not [exit]: it left the [while], or it
    is blocked in a [poll] that never returns. *)
Inductive status := Finished | Waiting.

Definition deliver (s : option Z) : M unit :=
  match s with
  | Some sig_num => sig_handler sig_num
  | None => ret tt
  end.

(** [poll(fds, SZ_IDX, -1)]. *)
Definition poll (w : wake) : M Z :=
  deliver (w_signal w) ;;
  for_each (seq 0 SZ_IDX) (fun i => modify (set_revents i (d_revents (w_dom w i)))) ;;
  emit (EPoll (-1) (w_ret w)) ;;
  ret (w_ret w).

Definition report_fmt : string := "%s %i %s %s\n".

(** The body of the inner [for]; the value is [event_counter]. *)
Definition scan_body (w : wake) (i : nat) (event_counter : list Z) : M (list Z) :=
  deliver (d_signal (w_dom w i)) ;;
  g <- get ;;
  if (revents (at_fds g i) =? 0) || (continue_event_loop g =? 0) then
    ret event_counter
  else
    deliver (d_signal_after (w_dom w i)) ;;
    g <- get ;;
    if truthy (Z.land (revents (at_fds g i)) POLLERR) then
      emit (EEprintf "\nError: poll() event source is gone.\n" []) ;;
      exit ERROR_PRESSURE_FILE_GONE
    else if truthy (events (at_fds g i)) then
      set_time_str (d_now (w_dom w i)) ;;
      set_content_str (d_read (w_dom w i)) i ;;
      g <- get ;;
      emit (EPrintf report_fmt
                    [AStr (at_file g i); AInt (nth i event_counter 0);
                     AStr (time_str g); ABuf (c_str (content_str g))]) ;;
      ret (upd i (int_add (nth i event_counter 0) 1) event_counter)
    else
      emit (EEprintf "\nUnrecognized event: 0x%x.\n" [AInt (revents (at_fds g i))]) ;;
      exit ERROR_PRESSURE_EVENT_UNK.

Fixpoint scan (w : wake) (l : list nat) (event_counter : list Z) : M (list Z) :=
  match l with
  | [] => ret event_counter
  | i :: l' => ec <- scan_body w i event_counter ;; scan w l' ec
  end.

(** The body of the [while], for one return of [poll]: [None] is the
    [break], [Some] carries [event_counter] into the next iteration. *)
Definition iteration (w : wake) (event_counter : list Z) : M (option (list Z)) :=
  n <- poll w ;;
  g <- get ;;
  if continue_event_loop g =? 0 then ret None
  else
    deliver (w_signal_after w) ;;
    if n <? 0 then
      emit (EEprintf "\nError using poll() function\n" []) ;;
      exit ERROR_PRESSURE_POLL_FDS
    else
      ec <- scan w (seq 0 SZ_IDX) event_counter ;;
      ret (Some ec).

(** The [while]: one iteration per return of [poll]; with no return left
    the program stays blocked in [poll]. *)
Fixpoint event_loop (ws : list wake) (event_counter : list Z) : M status :=
  g <- get ;;
  if continue_event_loop g =? 1 then
    match ws with
    | [] => ret Waiting
    | w :: ws' =>
        r <- iteration w event_counter ;;
        match r with
        | None => ret Finished
        | Some ec => event_loop ws' ec
        end
    end
  else ret Finished.

Definition pressure_event_loop (ws : list wake) : M status :=
  let event_counter :=
    fold_left (fun ec i => upd i 1 ec) (seq 0 SZ_IDX) (repeat 0 SZ_IDX) in
  emit (EPrintf "\nPolling for events...\n" []) ;;
  event_loop ws event_counter.

(** ** verify_proc_pressure, populate_arrays and main *)

Definition verify_proc_pressure (sret : Z) (now : string) : M unit :=
  emit (EStat CPU_PRESSURE_FILE sret) ;;
  if sret =? -1 then
    emit (EEprintf
      "To monitor with poll() in Linux, uname -r must report a kernel version of 5.2+\n" []) ;;
    exit ERROR_KERNEL_UNSUPPORTED
  else
    set_time_str now ;;
    g <- get ;;
    emit (EPrintf "Polling events starting at %s" [AStr (time_str g)]).

Definition populate_arrays : M unit :=
  modify (fun g => set_pressure_file (upd 0%nat "/proc/pressure/cpu" (pressure_file g)) g) ;;
  modify (fun g => set_pressure_file (upd 1%nat "/proc/pressure/io" (pressure_file g)) g) ;;
  modify (fun g => set_pressure_file (upd 2%nat "/proc/pressure/memory" (pressure_file g)) g) ;;
  modify (fun g => set_threshold (upd 0%nat CPU_TRIGGER_THRESHOLD_MS (delay_threshold_ms g)) g) ;;
  modify (fun g => set_threshold (upd 1%nat IO_TRIGGER_THRESHOLD_MS (delay_threshold_ms g)) g) ;;
  modify (fun g => set_threshold (upd 2%nat MEMORY_TRIGGER_THRESHOLD_MS (delay_threshold_ms g)) g) ;;
  modify (fun g => set_window (upd 0%nat CPU_TRACKING_WINDOW_MS (tracking_window_ms g)) g) ;;
  modify (fun g => set_window (upd 1%nat IO_TRACKING_WINDOW_MS (tracking_window_ms g)) g) ;;
  modify (fun g => set_window (upd 2%nat MEMORY_TRACKING_WINDOW_MS (tracking_window_ms g)) g).

(** [main] after [argp_parse] has returned.  Falling off the end of
    [main] is a return of 0. *)
Definition main (e : env) : M status :=
  populate_arrays ;;
  verify_proc_pressure (e_stat e) (e_start e) ;;
  poll_pressure_events (e_reg e) ;;
  emit (ESignal SIGTERM) ;;
  emit (ESignal SIGINT) ;;
  pressure_event_loop (e_wakes e).

Definition exit_status (r : result status) : option Z :=
  match r with
  | Ret Finished _ => Some 0
  | Ret Waiting _ => None
  | Exit code => Some code
  end.

Definition run_main (e : env) : list event * result status := main e initial_globals.

(** ** The handler, statement by statement

    A signal can arrive between any two statements of sig_handler.  The
    handler is installed with [signal], which on Linux blocks the signal
    being handled until its handler returns and leaves the other one
    deliverable; a blocked signal stays pending (once) and is delivered
    when the handler returns.  The machine below runs handlers only: the
    code they interrupt (main, blocked in [poll]) makes no step in it. *)

Definition close_fd_steps (i : nat) : list (M unit) :=
  [ (g <- get ;;
     emit (EEprintf "Closing file descriptor fds[%i] for %s\n"
                    [AInt (Z.of_nat i); AStr (at_file g i)]));
    (g <- get ;; emit (EUsleep (int_mul (at_window g i) MS_TO_US)));
    (g <- get ;; emit (EClose (fd (at_fds g i)))) ].

Definition close_fds_steps : list (M unit) :=
  [emit (EEprintf "Please wait until all three file descriptors are closed\n" [])]
  ++ flat_map close_fd_steps (seq 0 SZ_IDX)
  ++ [emit (EEprintf "\nAll file descriptors now closed, exiting now!\n" [])].

Definition sig_handler_steps (sig_num : Z) : list (M unit) :=
  [ emit (EPrintf "\nTerminating in response to Ctrl+C \n" []);
    emit (ESignal SIGINT);
    emit (ESignal SIGTERM);
    (emit (ERun 0) ;; modify (set_run 0)) ]
  ++ close_fds_steps
  ++ [emit EFflush].

Fixpoint run_steps (l : list (M unit)) : M unit :=
  match l with
  | [] => ret tt
  | a :: l' => a ;; run_steps l'
  end.

(** A handler in progress: the signal it handles and what is left of it. *)
Record frame := mk_frame { f_sig : Z; f_rest : list (M unit) }.

Record machine := mk_machine {
  m_globals : globals;
  m_stack : list frame;
  m_pending : list Z;
  m_trace : list event;
  m_exit : option Z
}.

Inductive input :=
| Tick
| Arrive (sig_num : Z).

Definition idle (g : globals) : machine := mk_machine g [] [] [] None.

Definition blocked (m : machine) (s : Z) : bool :=
  existsb (Z.eqb s) (map f_sig (m_stack m)).

Definition enter (s : Z) (m : machine) : machine :=
  mk_machine (m_globals m) (mk_frame s (sig_handler_steps s) :: m_stack m)
             (m_pending m) (m_trace m) (m_exit m).

Definition mark_pending (s : Z) (m : machine) : machine :=
  if existsb (Z.eqb s) (m_pending m) then m
  else mk_machine (m_globals m) (m_stack m) (m_pending m ++ [s]) (m_trace m) (m_exit m).

(** A handler returned: the first pending signal that is no longer
    blocked is delivered. *)
Definition leave (m : machine) : machine :=
  let m' := mk_machine (m_globals m) (tl (m_stack m)) (m_pending m) (m_trace m) (m_exit m) in
  match filter (fun s => negb (blocked m' s)) (m_pending m') with
  | [] => m'
  | s :: _ =>
      enter s (mk_machine (m_globals m') (m_stack m')
                          (filter (fun s' => negb (s' =? s)) (m_pending m'))
                          (m_trace m') (m_exit m'))
  end.

(** One step: a signal arrives, or the innermost handler in progress
    executes its next statement (or returns when none is left). *)
Definition step (m : machine) (i : input) : machine :=
  match m_exit m with
  | Some _ => m
  | None =>
      match i with
      | Arrive s => if blocked m s then mark_pending s m else enter s m
      | Tick =>
          match m_stack m with
          | [] => m
          | f :: st =>
              match f_rest f with
              | [] => leave m
              | a :: rest =>
                  match a (m_globals m) with
                  | (t, Ret _ g') =>
                      mk_machine g' (mk_frame (f_sig f) rest :: st) (m_pending m)
                                 (m_trace m ++ t) None
                  | (t, Exit code) =>
                      mk_machine (m_globals m) [] [] (m_trace m ++ t) (Some code)
                  end
              end
          end
      end
  end.

Definition run (m : machine) (l : list input) : machine := fold_left step l m.

(** ** Reading traces *)

Definition writes (t : list event) : list (Z * list ascii) :=
  flat_map (fun e => match e with EWrite f d _ => [(f, d)] | _ => [] end) t.

Definition closes (t : list event) : list Z :=
  flat_map (fun e => match e with EClose f => [f] | _ => [] end) t.

Definition opens (t : list event) : list string :=
  flat_map (fun e => match e with EOpen p _ _ => [p] | _ => [] end) t.

(** The messages sent to stderr. *)
Definition eprints (t : list event) : list string :=
  flat_map (fun e => match e with EEprintf fmt _ => [fmt] | _ => [] end) t.

(** What a mock of the clock, of [close] and of the run flag observes. *)
Definition is_shutdown_event (e : event) : bool :=
  match e with
  | ERun _ | EUsleep _ | EClose _ => true
  | _ => false
  end.

Definition domain_of_path (p : string) : option nat :=
  if String.eqb p CPU_PRESSURE_FILE then Some FD_CPU_IDX
  else if String.eqb p IO_PRESSURE_FILE then Some FD_IO_IDX
  else if String.eqb p MEMORY_PRESSURE_FILE then Some FD_MEMORY_IDX
  else None.

(** A report line: the printf of pressure_event_loop; its domain and the
    count it prints. *)
Definition report_of (e : event) : option (nat * Z) :=
  match e with
  | EPrintf fmt [AStr p; AInt c; AStr _; ABuf _] =>
      if String.eqb fmt report_fmt
      then option_map (fun d => (d, c)) (domain_of_path p)
      else None
  | _ => None
  end.

Definition reports (t : list event) : list (nat * Z) :=
  flat_map (fun e => match report_of e with Some r => [r] | None => [] end) t.

Definition report_domains (t : list event) : list nat := map fst (reports t).

(** The counts printed for domain [i], in order. *)
Definition counts_of (i : nat) (t : list event) : list Z :=
  map snd (filter (fun r => Nat.eqb (fst r) i) (reports t)).

(** ** States, wakes and descriptors of the specification *)

Definition descriptor_text (i : nat) : string :=
  nth i ["some 50000 500000"; "some 100000 1000000"; "some 75000 750000"] "".

(** The bytes of a C string: its characters and the terminator. *)
Definition c_bytes (s : string) : list ascii := list_ascii_of_string s ++ [NUL].

(** The globals once populate_arrays is done. *)
Definition configured (g : globals) : Prop :=
  pressure_file g = [CPU_PRESSURE_FILE; IO_PRESSURE_FILE; MEMORY_PRESSURE_FILE] /\
  delay_threshold_ms g =
    [CPU_TRIGGER_THRESHOLD_MS; IO_TRIGGER_THRESHOLD_MS; MEMORY_TRIGGER_THRESHOLD_MS] /\
  tracking_window_ms g =
    [CPU_TRACKING_WINDOW_MS; IO_TRACKING_WINDOW_MS; MEMORY_TRACKING_WINDOW_MS] /\
  List.length (fds g) = SZ_IDX.

(** The globals once poll_pressure_events is done as well. *)
Definition registered (g : globals) : Prop :=
  configured g /\ map events (fds g) = [POLLPRI; POLLPRI; POLLPRI].

(** What the registration of domain [i] leaves in the globals. *)
Definition after_register (reg : nat -> reg_in) (i : nat) (g : globals) : globals :=
  set_content
    (store_prefix (read_bytes (echo (reg i)) SZ_CONTENT)
                  (store_prefix (memset_zero SZ_CONTENT) (content_str g)))
    (set_events i POLLPRI (set_fd i (rw_fd (reg i)) g)).

(** The calls of the registration of domain [i], up to the [write]. *)
Definition register_trace (reg : nat -> reg_in) (i : nat) (g : globals) : list event :=
  [ EOpen (at_file g i) (Z.lor O_RDWR O_NONBLOCK) (rw_fd (reg i));
    EPrintf "\n%s distress_event:\n%s\n" [AStr (at_file g i); ABuf (Some (descriptor_text i))];
    EOpen (at_file g i) (Z.lor O_NONBLOCK O_RDONLY) (ro_fd (echo (reg i)));
    ERead (ro_fd (echo (reg i))) SZ_CONTENT (read_ret (echo (reg i)) SZ_CONTENT);
    EClose (ro_fd (echo (reg i)));
    EPrintf "%s content:\n%s\n"
            [AStr (at_file g i); ABuf (c_str (content_str (after_register reg i g)))];
    EWrite (rw_fd (reg i)) (c_bytes (descriptor_text i)) (write_ret (reg i)) ].

Definition open_failed (reg : nat -> reg_in) (i : nat) : bool := rw_fd (reg i) <? 0.
Definition write_failed (reg : nat -> reg_in) (i : nat) : bool := write_ret (reg i) <? 0.
Definition register_failed (reg : nat -> reg_in) (i : nat) : bool :=
  open_failed reg i || write_failed reg i.

(** populate_arrays followed by poll_pressure_events, as main runs them. *)
Definition registration (reg : nat -> reg_in) : list event * result unit :=
  (populate_arrays ;; poll_pressure_events reg) initial_globals.

(** No termination signal is handled between a test of the run flag and
    the error test that follows it. *)
Definition timely (w : wake) : Prop :=
  w_signal_after w = None /\
  forall i, (i < SZ_IDX)%nat -> d_signal_after (w_dom w i) = None.

(** No termination signal is handled during the wake. *)
Definition quiet (w : wake) : Prop :=
  (w_signal w = None /\ forall i, (i < SZ_IDX)%nat -> d_signal (w_dom w i) = None) /\
  timely w.

Definition file_gone (r : Z) : bool := truthy (Z.land r POLLERR).
Definition distress (r : Z) : bool := truthy (Z.land r POLLPRI) && negb (file_gone r).

Definition threshold_ms (i : nat) : Z :=
  nth i [CPU_TRIGGER_THRESHOLD_MS; IO_TRIGGER_THRESHOLD_MS; MEMORY_TRIGGER_THRESHOLD_MS] 0.
Definition window_ms (i : nat) : Z :=
  nth i [CPU_TRACKING_WINDOW_MS; IO_TRACKING_WINDOW_MS; MEMORY_TRACKING_WINDOW_MS] 0.

(** ** Sample runs *)

Definition sample_read (s : string) : read_in := mk_read_in 9 (list_ascii_of_string s).

Definition sample_reg (i : nat) : reg_in :=
  mk_reg_in (3 + Z.of_nat i)
            (sample_read "some avg10=0.00 avg60=0.00 avg300=0.00 total=0")
            (Z.of_nat (List.length (c_bytes (descriptor_text i)))).

(** The same, but the [write] for CPU stores 5 of its 18 bytes. *)
Definition short_write_reg (i : nat) : reg_in :=
  mk_reg_in (3 + Z.of_nat i)
            (sample_read "some avg10=0.00 avg60=0.00 avg300=0.00 total=0")
            (if Nat.eqb i FD_CPU_IDX then 5
             else Z.of_nat (List.length (c_bytes (descriptor_text i)))).

(** The same, but the [write] for IO fails. *)
Definition failed_write_reg (i : nat) : reg_in :=
  mk_reg_in (3 + Z.of_nat i)
            (sample_read "some avg10=0.00 avg60=0.00 avg300=0.00 total=0")
            (if Nat.eqb i FD_IO_IDX then -1
             else Z.of_nat (List.length (c_bytes (descriptor_text i)))).

Definition sample_dom (r : Z) : dom_in :=
  mk_dom_in r None "2026-01-01 00:00:00"
            (sample_read "some avg10=1.00 avg60=0.00 avg300=0.00 total=51000") None.

(** The globals after a registration in which every call succeeded. *)
Definition sample_globals : globals :=
  match (populate_arrays ;; poll_pressure_events sample_reg) initial_globals with
  | (_, Ret _ g) => g
  | (_, Exit _) => initial_globals
  end.

(** The trace of one run of sig_handler from globals [g]. *)
Definition handler_trace (g : globals) : list event :=
  [ EPrintf "\nTerminating in response to Ctrl+C \n" [];
    ESignal SIGINT; ESignal SIGTERM; ERun 0;
    EEprintf "Please wait until all three file descriptors are closed\n" [];
    EEprintf "Closing file descriptor fds[%i] for %s\n" [AInt 0; AStr (at_file g 0)];
    EUsleep (int_mul (at_window g 0) MS_TO_US); EClose (fd (at_fds g 0));
    EEprintf "Closing file descriptor fds[%i] for %s\n" [AInt 1; AStr (at_file g 1)];
    EUsleep (int_mul (at_window g 1) MS_TO_US); EClose (fd (at_fds g 1));
    EEprintf "Closing file descriptor fds[%i] for %s\n" [AInt 2; AStr (at_file g 2)];
    EUsleep (int_mul (at_window g 2) MS_TO_US); EClose (fd (at_fds g 2));
    EEprintf "\nAll file descriptors now closed, exiting now!\n" [];
    EFflush ].

(** The domains whose [write] the registration loop reaches, in order:
    the loop stops at the first [open] or [write] that fails. *)
Fixpoint attempted (reg : nat -> reg_in) (l : list nat) : list nat :=
  match l with
  | [] => []
  | i :: l' =>
      if open_failed reg i then []
      else if write_failed reg i then [i]
      else i :: attempted reg l'
  end.

(** Registration gets as far as the [write] of domain [i]. *)
Definition reaches_write (reg : nat -> reg_in) (i : nat) : bool :=
  forallb (fun j => negb (register_failed reg j)) (seq 0 i) && negb (open_failed reg i).

Definition written (reg : nat -> reg_in) (i : nat) : Z * list ascii :=
  (rw_fd (reg i), c_bytes (descriptor_text i)).

(** ** The pieces of one wake *)

(** The globals and the trace after a signal was (or was not) handled. *)
Definition signalled (s : option Z) (g : globals) : globals :=
  match s with
  | Some _ => set_run 0 g
  | None => g
  end.

Definition signal_trace (s : option Z) (g : globals) : list event :=
  match s with
  | Some _ => handler_trace g
  | None => []
  end.

(** The globals once [poll] has stored the three [revents]. *)
Definition polled (w : wake) (g : globals) : globals :=
  set_revents 2 (d_revents (w_dom w 2%nat))
    (set_revents 1 (d_revents (w_dom w 1%nat))
       (set_revents 0 (d_revents (w_dom w 0%nat)) g)).

(** The globals once the report of domain [i] is printed. *)
Definition reported (w : wake) (i : nat) (g : globals) : globals :=
  set_content
    (store_prefix (read_bytes (d_read (w_dom w i)) SZ_CONTENT)
                  (store_prefix (memset_zero SZ_CONTENT) (content_str g)))
    (set_time (d_now (w_dom w i)) g).

(** The calls of one report of domain [i]. *)
Definition report_trace (w : wake) (i : nat) (event_counter : list Z) (g : globals)
  : list event :=
  [ EOpen (at_file g i) (Z.lor O_NONBLOCK O_RDONLY) (ro_fd (d_read (w_dom w i)));
    ERead (ro_fd (d_read (w_dom w i))) SZ_CONTENT (read_ret (d_read (w_dom w i)) SZ_CONTENT);
    EClose (ro_fd (d_read (w_dom w i)));
    EPrintf report_fmt
            [ AStr (at_file g i); AInt (nth i event_counter 0);
              AStr (d_now (w_dom w i));
              ABuf (c_str (content_str (reported w i g))) ] ].

Definition gone_msg : event := EEprintf "\nError: poll() event source is gone.\n" [].
Definition unknown_msg (r : Z) : event := EEprintf "\nUnrecognized event: 0x%x.\n" [AInt r].
Definition poll_error_msg : event := EEprintf "\nError using poll() function\n" [].

Definition is_run (e : event) : bool :=
  match e with
  | ERun _ => true
  | _ => false
  end.

(** What main does between registration and the first [poll]. *)
Definition loop_banner : list event :=
  [ESignal SIGTERM; ESignal SIGINT; EPrintf "\nPolling for events...\n" []].

(** A wake in which every domain has the same [revents] and no signal
    arrives. *)
Definition sample_wake (r0 r1 r2 : Z) : wake :=
  mk_wake 1 None (fun i => sample_dom (nth i [r0; r1; r2] 0)) None.



Definition sample_env (ws : list wake) : env :=
  mk_env 0 "2026-01-01 00:00:00" sample_reg ws.

(** A pressure file holding 130 bytes, none of them NUL. *)
Definition long_read : read_in := mk_read_in 9 (repeat "x"%char 130).

(** The globals after set_content_str read that file for the CPU
    domain. *)
Definition long_read_globals : globals :=
  match set_content_str long_read FD_CPU_IDX sample_globals with
  | (_, Ret _ g) => g
  | (_, Exit _) => sample_globals
  end.

(** A wake in which CPU is in distress and its file is that long. *)
Definition long_read_wake : wake :=
  mk_wake 1 None
    (fun i => mk_dom_in (if Nat.eqb i FD_CPU_IDX then POLLPRI else 0) None
                        "2026-01-01 00:00:00" long_read None)
    None.

(** The arguments of the report lines of a trace. *)
Definition report_args (t : list event) : list (list arg) :=
  flat_map (fun e => match e with
                     | EPrintf fmt args => if String.eqb fmt report_fmt then [args] else []
                     | _ => []
                     end) t.

(** A first signal, [k] statements of its handler, a second signal, and
    [n] further steps. *)
Definition two_signals (s1 s2 : Z) (k n : nat) : list input :=
  Arrive s1 :: repeat Tick k ++ Arrive s2 :: repeat Tick n.

(** How many times a trace starts the drain of close_fds. *)
Definition drain_starts (t : list event) : nat :=
  List.length
    (filter (fun e =>
               match e with
               | EEprintf fmt [] =>
                   String.eqb fmt "Please wait until all three file descriptors are closed\n"
               | _ => false
               end) t).

(** ** Further readings of runs *)

(** The calls poll_pressure_events makes: files and console only. *)
Definition is_registration_event (e : event) : bool :=
  match e with
  | EOpen _ _ _ | ERead _ _ _ | EClose _ | EWrite _ _ _
  | EPrintf _ _ | EEprintf _ _ => true
  | _ => false
  end.

Definition is_signal_call (e : event) : bool :=
  match e with
  | ESignal _ => true
  | _ => false
  end.

(** Registration gets as far as the [open] of domain [i]. *)
Definition reaches_open (reg : nat -> reg_in) (i : nat) : bool :=
  forallb (fun j => negb (register_failed reg j)) (seq 0 i).

(** No call of the registration fails. *)
Definition registration_ok (reg : nat -> reg_in) : bool :=
  forallb (fun i => negb (register_failed reg i)) (seq 0 SZ_IDX).

(** What main prints before it registers. *)
Definition startup_trace (e : env) : list event :=
  [ EStat CPU_PRESSURE_FILE (e_stat e);
    EPrintf "Polling events starting at %s" [AStr (e_start e)] ].

Definition unsupported_trace (e : env) : list event :=
  [ EStat CPU_PRESSURE_FILE (e_stat e);
    EEprintf
      "To monitor with poll() in Linux, uname -r must report a kernel version of 5.2+\n"
      [] ].

(** A report line with all its arguments, and the lines of domain [i]. *)
Definition report_line (e : event) : option (nat * list arg) :=
  match e with
  | EPrintf fmt [AStr p; AInt c; AStr t; ABuf b] =>
      if String.eqb fmt report_fmt
      then option_map (fun d => (d, [AStr p; AInt c; AStr t; ABuf b])) (domain_of_path p)
      else None
  | _ => None
  end.

Definition report_lines (t : list event) : list (nat * list arg) :=
  flat_map (fun e => match report_line e with Some r => [r] | None => [] end) t.

Definition lines_of (i : nat) (t : list event) : list (list arg) :=
  map snd (filter (fun r => Nat.eqb (fst r) i) (report_lines t)).

Definition count_of_line (args : list arg) : Z :=
  match args with
  | [_; AInt c; _; _] => c
  | _ => 0
  end.

Definition path_of (i : nat) : string :=
  nth i [CPU_PRESSURE_FILE; IO_PRESSURE_FILE; MEMORY_PRESSURE_FILE] "".


(** A read that succeeds on a file shorter than the array, no NUL in it. *)
Definition plain_read (r : read_in) : Prop :=
  0 <= ro_fd r /\ (List.length (file r) < SZ_CONTENT)%nat /\
  Forall (fun c => c <> NUL) (file r).

(** The kernel has no pressure files. *)
Definition unsupported_env : env :=
  mk_env (-1) "2026-01-01 00:00:00" sample_reg [].

(** The [open] for IO fails. *)
Definition failed_open_reg (i : nat) : reg_in :=
  mk_reg_in (if Nat.eqb i FD_IO_IDX then -1 else 3 + Z.of_nat i)
            (sample_read "some avg10=0.00 avg60=0.00 avg300=0.00 total=0")
            (Z.of_nat (List.length (c_bytes (descriptor_text i)))).

(** A wake whose domains are read through descriptors that [open]
    refused. *)
Definition unreadable_wake (r0 r1 r2 : Z) : wake :=
  mk_wake 1 None
    (fun i => mk_dom_in (nth i [r0; r1; r2] 0) None "2026-01-01 00:00:00"
                        (mk_read_in (-1) []) None)
    None.

(** A wake in which SIGTERM is handled just before IO is examined. *)
Definition signal_before_io_wake (r0 r1 r2 : Z) : wake :=
  mk_wake 1 None
    (fun i => mk_dom_in (nth i [r0; r1; r2] 0)
                        (if Nat.eqb i FD_IO_IDX then Some SIGTERM else None)
                        "2026-01-01 00:00:00"
                        (sample_read "some avg10=1.00 avg60=0.00 avg300=0.00 total=51000")
                        None)
    None.



(** * Properties *)

(** ** Running computations *)

Lemma bind_run {A B} (m : M A) (k : A -> M B) (g : globals) :
  bind m k g =
  match m g with
  | (t, Ret a g') => (t ++ trace_of (k a g'), outcome_of (k a g'))
  | (t, Exit c) => (t, Exit c)
  end.
Proof.
  unfold bind, trace_of, outcome_of.
  destruct (m g) as [t [a g'|c]]; [destruct (k a g')|]; reflexivity.
Qed.

Lemma for_each_cons (body : nat -> M unit) (i : nat) (l : list nat) (g : globals) :
  for_each (i :: l) body g = bind (body i) (fun _ => for_each l body) g.
Proof. reflexivity. Qed.

Ltac three i := destruct i as [|[|[|i]]]; [ | | | exfalso; unfold SZ_IDX in *; lia ].

Lemma upd_length {A} (i : nat) (v : A) (l : list A) :
  List.length (upd i v l) = List.length l.
Proof.
  revert i; induction l as [|x l IH]; intros [|i]; cbn; try reflexivity.
  now rewrite IH.
Qed.

(** ** sig_handler *)

Lemma sig_handler_run (s : Z) (g : globals) :
  sig_handler s g = (handler_trace g, Ret tt (set_run 0 g)).
Proof. reflexivity. Qed.

Lemma sig_handler_steps_run (s : Z) (g : globals) :
  run_steps (sig_handler_steps s) g = sig_handler s g.
Proof. reflexivity. Qed.

Lemma registered_window (g : globals) (i : nat) :
  registered g -> at_window g i = window_ms i.
Proof. intros ((_ & _ & H & _) & _). unfold at_window, window_ms. now rewrite H. Qed.

Lemma sample_registered : registered sample_globals.
Proof. repeat split. Qed.

(** C4.  When sig_handler runs, the run flag is cleared before the first
    [close]; the three descriptors are then closed in the order CPU, IO,
    MEMORY, and the call just before each [close] is a [usleep] of that
    domain's tracking window (500, 1000 and 750 ms, in microseconds). *)
Theorem shutdown_order (s : Z) (g : globals) :
  registered g ->
  filter is_shutdown_event (trace_of (sig_handler s g)) =
    [ ERun 0;
      EUsleep (CPU_TRACKING_WINDOW_MS * MS_TO_US); EClose (fd (at_fds g FD_CPU_IDX));
      EUsleep (IO_TRACKING_WINDOW_MS * MS_TO_US); EClose (fd (at_fds g FD_IO_IDX));
      EUsleep (MEMORY_TRACKING_WINDOW_MS * MS_TO_US); EClose (fd (at_fds g FD_MEMORY_IDX)) ]
  /\ exists g', outcome_of (sig_handler s g) = Ret tt g' /\ continue_event_loop g' = 0.
Proof.
  intros R. rewrite sig_handler_run. split.
  - unfold handler_trace, trace_of. cbn [fst filter is_shutdown_event].
    rewrite !(registered_window g _ R). reflexivity.
  - eexists. split; reflexivity.
Qed.

Lemma shutdown_order_witness :
  filter is_shutdown_event (trace_of (sig_handler SIGINT sample_globals)) =
    [ ERun 0; EUsleep 500000; EClose 3; EUsleep 1000000; EClose 4;
      EUsleep 750000; EClose 5 ].
Proof. exact (proj1 (shutdown_order SIGINT sample_globals sample_registered)). Defined.

(** ** Registration *)

Section Registration.

Variable reg : nat -> reg_in.

Lemma register_run (i : nat) (g : globals) :
  configured g -> (i < SZ_IDX)%nat ->
  register reg i g =
    if open_failed reg i then
      ([ EOpen (at_file g i) (Z.lor O_RDWR O_NONBLOCK) (rw_fd (reg i));
         EEprintf "Error open() pressure file %s:" [AStr (at_file g i)] ],
       Exit ERROR_PRESSURE_OPEN)
    else if write_failed reg i then
      (register_trace reg i g ++
         [EEprintf "Error write() pressure file: %s\n" [AStr (at_file g i)]],
       Exit ERROR_PRESSURE_WRITE)
    else (register_trace reg i g, Ret tt (after_register reg i g)).
Proof.
  intros (Hf & Ht & Hw & Hl) Hi.
  destruct g as [fs c pf ts th tw run]; cbn in Hf, Ht, Hw, Hl; subst pf th tw.
  destruct fs as [|p0 [|p1 [|p2 [|]]]]; try discriminate Hl.
  unfold register, open_failed, write_failed, register_trace, after_register.
  three i;
    destruct (rw_fd (reg _)) as [|p|p]; destruct (write_ret (reg _)) as [|q|q];
    reflexivity.
Qed.

Lemma configured_after_register (i : nat) (g : globals) :
  configured g -> configured (after_register reg i g).
Proof.
  intros (Hf & Ht & Hw & Hl). repeat split; try assumption.
  cbn. now rewrite !upd_length.
Qed.

Lemma at_file_after_register (i j : nat) (g : globals) :
  at_file (after_register reg i g) j = at_file g j.
Proof. reflexivity. Qed.

Lemma writes_app (t1 t2 : list event) : writes (t1 ++ t2) = writes t1 ++ writes t2.
Proof. apply flat_map_app. Qed.

Lemma last_app_tail {A} (l1 l2 : list A) (d : A) :
  l2 <> [] -> last (l1 ++ l2) d = last l2 d.
Proof.
  intros H. induction l1 as [|x l1 IH]; [reflexivity|].
  cbn [app last]. destruct (l1 ++ l2) eqn:E; [|exact IH].
  apply app_eq_nil in E. tauto.
Qed.

Lemma register_trace_writes (i : nat) (g : globals) :
  writes (register_trace reg i g) = [written reg i].
Proof. reflexivity. Qed.

Lemma register_trace_no_run (i : nat) (g : globals) (v : Z) :
  ~ In (ERun v) (register_trace reg i g).
Proof. cbn. intros H. repeat (destruct H as [H|H]; [discriminate H|]). exact H. Qed.

(** The registration loop over the indices [l]: what it writes, and how
    it ends. *)
Lemma register_all (l : list nat) :
  forall g, configured g -> Forall (fun i => (i < SZ_IDX)%nat) l ->
  let r := for_each l (register reg) g in
  writes (trace_of r) = map (written reg) (attempted reg l) /\
  (forall v, ~ In (ERun v) (trace_of r)) /\
  match find (register_failed reg) l with
  | Some i =>
      if open_failed reg i then
        outcome_of r = Exit ERROR_PRESSURE_OPEN /\
        last (trace_of r) EFflush =
          EEprintf "Error open() pressure file %s:" [AStr (at_file g i)]
      else
        outcome_of r = Exit ERROR_PRESSURE_WRITE /\
        last (trace_of r) EFflush =
          EEprintf "Error write() pressure file: %s\n" [AStr (at_file g i)]
  | None => exists g', outcome_of r = Ret tt g' /\ configured g'
  end.
Proof.
  induction l as [|i l IH]; intros g C F; cbn zeta.
  - cbn. repeat split; [tauto | eauto].
  - inversion F as [|? ? Hi F']; subst.
    rewrite for_each_cons, bind_run, (register_run i g C Hi).
    cbn [attempted find]. unfold register_failed.
    destruct (open_failed reg i) eqn:O; cbn [orb].
    + rewrite O. split; [reflexivity|]. split; [|split; reflexivity].
      intros v [H|[H|[]]]; discriminate H.
    + destruct (write_failed reg i) eqn:W.
      * rewrite O. unfold trace_of, outcome_of. cbn [fst snd].
        rewrite writes_app, register_trace_writes.
        split; [reflexivity|]. split; [|split; reflexivity].
        intros v H. apply in_app_or in H as [H|[H|[]]]; [|discriminate H].
        exact (register_trace_no_run i g v H).
      * specialize (IH (after_register reg i g) (configured_after_register i g C) F').
        cbn zeta in IH. destruct IH as (IHw & IHr & IHo).
        unfold trace_of, outcome_of in *. cbn [fst snd].
        rewrite writes_app, register_trace_writes, IHw.
        split; [reflexivity|]. split.
        -- intros v H. apply in_app_or in H as [H|H];
             [exact (register_trace_no_run i g v H) | exact (IHr v H)].
        -- destruct (find _ l) as [j|]; [|exact IHo].
           rewrite at_file_after_register in IHo.
           assert (N : forall m, last (fst (for_each l (register reg)
                         (after_register reg i g))) EFflush = m -> m <> EFflush ->
                       last (register_trace reg i g ++ fst (for_each l (register reg)
                         (after_register reg i g))) EFflush = m).
           { intros m Hm Hne. rewrite last_app_tail; [exact Hm|].
             intros E. rewrite E in Hm. cbn in Hm. congruence. }
           destruct (open_failed reg j); destruct IHo as (Ho & Hl); split;
             try exact Ho; apply N; try exact Hl; discriminate.
Qed.

Lemma populate_arrays_run :
  exists g, populate_arrays initial_globals = ([], Ret tt g) /\ configured g /\
            fds g = fds initial_globals.
Proof. eexists. split; [reflexivity|]. repeat split. Qed.

Lemma three_indices : Forall (fun i => (i < SZ_IDX)%nat) (seq 0 SZ_IDX).
Proof. repeat constructor. Qed.

(** The whole registration, through [register_all]. *)
Lemma registration_run :
  writes (trace_of (registration reg)) = map (written reg) (attempted reg (seq 0 SZ_IDX)) /\
  (forall v, ~ In (ERun v) (trace_of (registration reg))) /\
  match find (register_failed reg) (seq 0 SZ_IDX) with
  | Some i =>
      if open_failed reg i then
        outcome_of (registration reg) = Exit ERROR_PRESSURE_OPEN /\
        last (trace_of (registration reg)) EFflush =
          EEprintf "Error open() pressure file %s:"
                   [AStr (nth i [CPU_PRESSURE_FILE; IO_PRESSURE_FILE; MEMORY_PRESSURE_FILE] "")]
      else
        outcome_of (registration reg) = Exit ERROR_PRESSURE_WRITE /\
        last (trace_of (registration reg)) EFflush =
          EEprintf "Error write() pressure file: %s\n"
                   [AStr (nth i [CPU_PRESSURE_FILE; IO_PRESSURE_FILE; MEMORY_PRESSURE_FILE] "")]
  | None => exists g', outcome_of (registration reg) = Ret tt g' /\ configured g'
  end.
Proof.
  destruct populate_arrays_run as (g & Hp & C & _).
  pose proof (register_all (seq 0 SZ_IDX) g C three_indices) as H.
  cbn zeta in H. unfold at_file in H. destruct C as (Hf & _). rewrite Hf in H.
  unfold registration. rewrite bind_run, Hp. cbn [app].
  unfold trace_of, outcome_of in *. cbn [fst snd]. exact H.
Qed.

(** C1.  During registration the bytes passed to the [write] on a
    domain's descriptor are the C string "some <threshold_ms*1000>
    <window_ms*1000>" of that domain (its characters and the terminating
    NUL): "some 50000 500000" for CPU, "some 100000 1000000" for IO and
    "some 75000 750000" for memory; a registration in which no call fails
    writes the three of them. *)
Theorem descriptor_written :
  Forall (fun i => descriptor_text i =
                   format_some (threshold_ms i * MS_TO_US) (window_ms i * MS_TO_US))
         (seq 0 SZ_IDX) /\
  descriptor_text FD_CPU_IDX = "some 50000 500000" /\
  descriptor_text FD_IO_IDX = "some 100000 1000000" /\
  descriptor_text FD_MEMORY_IDX = "some 75000 750000" /\
  writes (trace_of (registration reg)) =
    map (fun i => (rw_fd (reg i), c_bytes (descriptor_text i)))
        (attempted reg (seq 0 SZ_IDX)) /\
  (forallb (fun i => negb (register_failed reg i)) (seq 0 SZ_IDX) = true ->
   attempted reg (seq 0 SZ_IDX) = seq 0 SZ_IDX).
Proof.
  split; [repeat constructor|]. do 3 (split; [reflexivity|]). split.
  - exact (proj1 (registration_run)).
  - cbn [seq SZ_IDX forallb attempted]. unfold register_failed.
    destruct (open_failed reg 0), (write_failed reg 0),
             (open_failed reg 1), (write_failed reg 1),
             (open_failed reg 2), (write_failed reg 2);
      cbn; intros H; try discriminate H; reflexivity.
Qed.


Lemma write_failed_iff (i : nat) :
  write_failed reg i = true <-> write_ret (reg i) < 0.
Proof. apply Z.ltb_lt. Qed.

(** C9, as the code has it.  A [write] of the descriptor that returns a
    negative value is fatal: the process exits with code 3 after a
    message naming the domain's file.  No other return value of [write]
    leads to that exit: a short count is not examined. *)
Theorem write_error_is_fatal (i : nat) :
  (i < SZ_IDX)%nat ->
  reaches_write reg i = true ->
  (write_ret (reg i) < 0 ->
   outcome_of (registration reg) = Exit ERROR_PRESSURE_WRITE /\
   last (trace_of (registration reg)) EFflush =
     EEprintf "Error write() pressure file: %s\n"
              [AStr (nth i [CPU_PRESSURE_FILE; IO_PRESSURE_FILE; MEMORY_PRESSURE_FILE] "")]) /\
  (outcome_of (registration reg) = Exit ERROR_PRESSURE_WRITE ->
   exists j, (j < SZ_IDX)%nat /\ reaches_write reg j = true /\ write_ret (reg j) < 0).
Proof.
  intros Hi R. destruct (registration_run) as (_ & _ & H). split.
  - intros W. apply write_failed_iff in W.
    revert H R. unfold reaches_write, register_failed.
    three i; cbn [seq SZ_IDX forallb find]; rewrite ?W;
      repeat match goal with
             | |- context [open_failed reg ?j] => destruct (open_failed reg j) eqn:?
             | |- context [write_failed reg ?j] => destruct (write_failed reg j) eqn:?
             end; cbn; intros H R; try discriminate R;
      repeat match goal with
             | E : open_failed reg ?j = _ |- _ => rewrite E in H; clear E
             end; exact H.
  - revert H. unfold reaches_write, register_failed, SZ_IDX.
    cbn [seq forallb find].
    destruct (open_failed reg 0) eqn:O0, (write_failed reg 0) eqn:W0,
             (open_failed reg 1) eqn:O1, (write_failed reg 1) eqn:W1,
             (open_failed reg 2) eqn:O2, (write_failed reg 2) eqn:W2;
      cbn; rewrite ?O0, ?O1, ?O2; intros H E;
      try (destruct H as (H & _); rewrite H in E; discriminate E);
      try (destruct H as (g' & H & _); rewrite H in E; discriminate E);
      first [ exists 0%nat; cbn [seq forallb]; rewrite ?O0, ?W0; cbn;
              split; [lia | split; [reflexivity | now apply write_failed_iff]]
            | exists 1%nat; cbn [seq forallb]; rewrite ?O0, ?W0, ?O1, ?W1; cbn;
              split; [lia | split; [reflexivity | now apply write_failed_iff]]
            | exists 2%nat; cbn [seq forallb]; rewrite ?O0, ?W0, ?O1, ?W1, ?O2, ?W2; cbn;
              split; [lia | split; [reflexivity | now apply write_failed_iff]] ].
Qed.

End Registration.

Lemma descriptor_written_witness :
  writes (trace_of (registration sample_reg)) =
    [ (3, c_bytes "some 50000 500000");
      (4, c_bytes "some 100000 1000000");
      (5, c_bytes "some 75000 750000") ].
Proof.
  destruct (descriptor_written sample_reg) as (_ & _ & _ & _ & W & A).
  rewrite W, (A eq_refl). reflexivity.
Defined.

Lemma write_error_is_fatal_witness :
  outcome_of (registration failed_write_reg) = Exit ERROR_PRESSURE_WRITE /\
  last (trace_of (registration failed_write_reg)) EFflush =
    EEprintf "Error write() pressure file: %s\n" [AStr "/proc/pressure/io"].
Proof.
  apply (proj1 (write_error_is_fatal failed_write_reg FD_IO_IDX
                  ltac:(unfold FD_IO_IDX, SZ_IDX; lia) eq_refl)).
  reflexivity.
Defined.

(** C9 as stated fails: the [write] for CPU returns 5, fewer than the 18
    bytes passed, and registration goes on to completion. *)
Lemma short_write_not_fatal :
  0 <= write_ret (short_write_reg FD_CPU_IDX)
    < Z.of_nat (List.length (snd (written short_write_reg FD_CPU_IDX))) /\
  outcome_of (registration short_write_reg) <> Exit ERROR_PRESSURE_WRITE /\
  map fst (writes (trace_of (registration short_write_reg))) = [3; 4; 5].
Proof.
  split; [cbn; lia|]. split; [|reflexivity].
  intros H. vm_compute in H. discriminate H.
Qed.

(** ** One wake *)

Lemma poll_run (w : wake) (g : globals) :
  poll w g =
    (signal_trace (w_signal w) g ++ [EPoll (-1) (w_ret w)],
     Ret (w_ret w) (polled w (signalled (w_signal w) g))).
Proof. unfold poll, deliver. destruct (w_signal w); reflexivity. Qed.

Lemma scan_body_run (w : wake) (i : nat) (ec : list Z) (g : globals) :
  scan_body w i ec g =
    let s := d_signal (w_dom w i) in
    let s' := d_signal_after (w_dom w i) in
    let r := revents (at_fds g i) in
    if (r =? 0) || (continue_event_loop (signalled s g) =? 0) then
      (signal_trace s g, Ret ec (signalled s g))
    else if file_gone r then
      (signal_trace s g ++ signal_trace s' g ++ [gone_msg], Exit ERROR_PRESSURE_FILE_GONE)
    else if truthy (events (at_fds g i)) then
      (signal_trace s g ++ signal_trace s' g ++
         report_trace w i ec (signalled s' (signalled s g)),
       Ret (upd i (int_add (nth i ec 0) 1) ec)
           (reported w i (signalled s' (signalled s g))))
    else
      (signal_trace s g ++ signal_trace s' g ++ [unknown_msg r],
       Exit ERROR_PRESSURE_EVENT_UNK).
Proof.
  unfold scan_body, deliver, file_gone, bind, get. cbn zeta.
  destruct (d_signal (w_dom w i)) as [s|]; cbn [signalled signal_trace].
  - rewrite sig_handler_run.
    change (at_fds (set_run 0 g) i) with (at_fds g i).
    destruct (revents (at_fds g i) =? 0); reflexivity.
  - unfold ret at 1.
    destruct ((revents (at_fds g i) =? 0) || (continue_event_loop g =? 0)); [reflexivity|].
    destruct (d_signal_after (w_dom w i)) as [s'|]; cbn [signalled signal_trace].
    + rewrite sig_handler_run. cbv beta iota zeta.
      change (at_fds (set_run 0 g) i) with (at_fds g i).
      destruct (truthy (Z.land (revents (at_fds g i)) POLLERR)); [reflexivity|].
      destruct (truthy (events (at_fds g i))); reflexivity.
    + unfold ret at 1.
      destruct (truthy (Z.land (revents (at_fds g i)) POLLERR)); [reflexivity|].
      destruct (truthy (events (at_fds g i))); reflexivity.
Qed.

Lemma scan_cons (w : wake) (i : nat) (l : list nat) (ec : list Z) (g : globals) :
  scan w (i :: l) ec g = bind (scan_body w i ec) (fun ec' => scan w l ec') g.
Proof. reflexivity. Qed.

Lemma iteration_run (w : wake) (ec : list Z) (g : globals) :
  iteration w ec g =
    let g1 := polled w (signalled (w_signal w) g) in
    let t1 := signal_trace (w_signal w) g ++ [EPoll (-1) (w_ret w)] in
    if continue_event_loop g1 =? 0 then (t1, Ret None g1)
    else
      let g2 := signalled (w_signal_after w) g1 in
      let t2 := t1 ++ signal_trace (w_signal_after w) g1 in
      if w_ret w <? 0 then (t2 ++ [poll_error_msg], Exit ERROR_PRESSURE_POLL_FDS)
      else match scan w (seq 0 SZ_IDX) ec g2 with
           | (t, Ret ec' g') => (t2 ++ t, Ret (Some ec') g')
           | (t, Exit c) => (t2 ++ t, Exit c)
           end.
Proof.
  unfold iteration, bind, get. rewrite poll_run. cbn zeta.
  destruct (continue_event_loop _ =? 0); [cbn; now rewrite app_nil_r|].
  unfold deliver.
  destruct (w_signal_after w) as [s|]; cbn [signalled signal_trace].
  - rewrite sig_handler_run. cbv beta iota zeta.
    destruct (w_ret w <? 0); [cbn; now rewrite <- !app_assoc|].
    destruct (scan w (seq 0 SZ_IDX) ec _) as [t [ec' g'|c]]; cbn;
      now rewrite ?app_nil_r, <- ?app_assoc.
  - unfold ret at 1. cbv beta iota zeta.
    destruct (w_ret w <? 0); [cbn; now rewrite ?app_nil_r, <- ?app_assoc|].
    destruct (scan w (seq 0 SZ_IDX) ec _) as [t [ec' g'|c]]; cbn;
      now rewrite ?app_nil_r, <- ?app_assoc.
Qed.

Lemma event_loop_cons (w : wake) (ws : list wake) (ec : list Z) (g : globals) :
  event_loop (w :: ws) ec g =
    if continue_event_loop g =? 1 then
      match iteration w ec g with
      | (t, Ret None g') => (t, Ret Finished g')
      | (t, Ret (Some ec') g') =>
          (t ++ trace_of (event_loop ws ec' g'), outcome_of (event_loop ws ec' g'))
      | (t, Exit c) => (t, Exit c)
      end
    else ([], Ret Finished g).
Proof.
  cbn [event_loop]. unfold bind, get, trace_of, outcome_of.
  destruct (continue_event_loop g =? 1); [|reflexivity].
  destruct (iteration w ec g) as [t [[ec'|] g'|c]]; cbn; try reflexivity.
  - now destruct (event_loop ws ec' g').
  - now rewrite app_nil_r.
Qed.


(** ** The run flag along the loop *)







Lemma polled_run_flag (w : wake) (g : globals) :
  continue_event_loop (polled w g) = continue_event_loop g.
Proof. reflexivity. Qed.



Lemma event_loop_nil (ec : list Z) (g : globals) :
  event_loop [] ec g =
    if continue_event_loop g =? 1 then ([], Ret Waiting g) else ([], Ret Finished g).
Proof.
  cbn [event_loop]. unfold bind, get. now destruct (continue_event_loop g =? 1).
Qed.



(** ** main *)

Lemma verify_proc_pressure_run (sret : Z) (now : string) (g : globals) :
  verify_proc_pressure sret now g =
    if sret =? -1 then
      ([ EStat CPU_PRESSURE_FILE sret;
         EEprintf
           "To monitor with poll() in Linux, uname -r must report a kernel version of 5.2+\n"
           [] ],
       Exit ERROR_KERNEL_UNSUPPORTED)
    else
      ([ EStat CPU_PRESSURE_FILE sret; EPrintf "Polling events starting at %s" [AStr now] ],
       Ret tt (set_time now g)).
Proof. unfold verify_proc_pressure, bind, emit. now destruct (sret =? -1). Qed.

Lemma pressure_event_loop_run (ws : list wake) (g : globals) :
  pressure_event_loop ws g =
    (EPrintf "\nPolling for events...\n" [] :: trace_of (event_loop ws [1; 1; 1] g),
     outcome_of (event_loop ws [1; 1; 1] g)).
Proof.
  unfold pressure_event_loop. cbn [fold_left seq SZ_IDX repeat upd].
  rewrite bind_run. reflexivity.
Qed.

(** [main], cut at the calls that can leave it. *)
Lemma main_run (e : env) :
  exists g1, configured g1 /\
  run_main e =
    if e_stat e =? -1 then
      ([ EStat CPU_PRESSURE_FILE (e_stat e);
         EEprintf
           "To monitor with poll() in Linux, uname -r must report a kernel version of 5.2+\n"
           [] ],
       Exit ERROR_KERNEL_UNSUPPORTED)
    else
      let pre := [ EStat CPU_PRESSURE_FILE (e_stat e);
                   EPrintf "Polling events starting at %s" [AStr (e_start e)] ] in
      match poll_pressure_events (e_reg e) g1 with
      | (t, Exit c) => (pre ++ t, Exit c)
      | (t, Ret _ g2) =>
          (pre ++ t ++ loop_banner ++
             trace_of (event_loop (e_wakes e) [1; 1; 1] g2),
           outcome_of (event_loop (e_wakes e) [1; 1; 1] g2))
      end.
Proof.
  destruct populate_arrays_run as (g0 & Hp & C & _).
  exists (set_time (e_start e) g0). split; [exact C|].
  unfold run_main, main. rewrite bind_run, Hp. unfold trace_of, outcome_of.
  cbn [app fst snd]. rewrite bind_run, verify_proc_pressure_run.
  destruct (e_stat e =? -1); [reflexivity|].
  cbn zeta. unfold trace_of, outcome_of. rewrite bind_run.
  destruct (poll_pressure_events (e_reg e) (set_time (e_start e) g0)) as [t [[] g2|c]];
    [|reflexivity].
  unfold trace_of, outcome_of, bind, emit. cbn beta iota zeta.
  rewrite pressure_event_loop_run. reflexivity.
Qed.

Lemma exit_status_code (r : result status) (c : Z) :
  c <> 0 -> exit_status r = Some c -> r = Exit c.
Proof. destruct r as [[] g|c']; cbn; congruence. Qed.




(** ** Registered globals along the loop *)

Lemma map_events_upd (l : list pollfd) (i : nat) (f v : Z) :
  map events (upd i (mk_pollfd f (events (nth i l pollfd0)) v) l) = map events l.
Proof.
  revert i; induction l as [|p l IH]; intros [|i]; cbn; try reflexivity.
  now rewrite IH.
Qed.

Lemma registered_set_revents (i : nat) (v : Z) (g : globals) :
  registered g -> registered (set_revents i v g).
Proof.
  intros ((Hf & Ht & Hw & Hl) & He). repeat split; try assumption.
  - cbn. now rewrite upd_length.
  - cbn. unfold at_fds. now rewrite map_events_upd.
Qed.

Lemma registered_polled (w : wake) (g : globals) :
  registered g -> registered (polled w g).
Proof. intros R. unfold polled. now repeat apply registered_set_revents. Qed.

Lemma registered_signalled (s : option Z) (g : globals) :
  registered g -> registered (signalled s g).
Proof. destruct s; intros R; exact R. Qed.

Lemma registered_reported (w : wake) (i : nat) (g : globals) :
  registered g -> registered (reported w i g).
Proof. intros R; exact R. Qed.

Ltac three_fds g H :=
  let fs := fresh "fs" in
  destruct g as [fs ? ? ? ? ? ?]; cbn in H;
  destruct fs as [|[? ? ?] [|[? ? ?] [|[? ? ?] [|]]]]; try discriminate H.

Lemma registered_events (g : globals) (i : nat) :
  registered g -> (i < SZ_IDX)%nat -> events (at_fds g i) = POLLPRI.
Proof.
  intros (_ & He) Hi. three_fds g He. injection He as -> -> ->. now three i.
Qed.

Lemma registered_path (g : globals) (i : nat) :
  registered g -> (i < SZ_IDX)%nat -> domain_of_path (at_file g i) = Some i.
Proof.
  intros ((Hf & _) & _) Hi. unfold at_file. rewrite Hf. now three i.
Qed.

Lemma polled_revents (w : wake) (g : globals) (i : nat) :
  registered g -> (i < SZ_IDX)%nat ->
  revents (at_fds (polled w g) i) = d_revents (w_dom w i).
Proof. intros (_ & He) Hi. three_fds g He. now three i. Qed.

(** The loop of main starts from registered globals. *)
Lemma poll_pressure_events_registered (reg : nat -> reg_in) (g g' : globals) :
  configured g ->
  outcome_of (poll_pressure_events reg g) = Ret tt g' -> registered g'.
Proof.
  intros C.
  pose proof (configured_after_register reg 0 g C) as C0.
  pose proof (configured_after_register reg 1 _ C0) as C1.
  pose proof (configured_after_register reg 2 _ C1) as C2.
  unfold poll_pressure_events. cbn [seq SZ_IDX].
  rewrite for_each_cons, bind_run, (register_run reg 0 g C) by (unfold SZ_IDX; lia).
  destruct (open_failed reg 0); [discriminate|].
  destruct (write_failed reg 0); [discriminate|].
  unfold outcome_of at 1. cbn [snd].
  rewrite for_each_cons, bind_run, (register_run reg 1 _ C0) by (unfold SZ_IDX; lia).
  destruct (open_failed reg 1); [discriminate|].
  destruct (write_failed reg 1); [discriminate|].
  unfold outcome_of at 1. cbn [snd].
  rewrite for_each_cons, bind_run, (register_run reg 2 _ C1) by (unfold SZ_IDX; lia).
  destruct (open_failed reg 2); [discriminate|].
  destruct (write_failed reg 2); [discriminate|].
  intros [= <-]. split; [exact C2|].
  destruct C as (_ & _ & _ & Hl). three_fds g Hl. reflexivity.
Qed.

(** With registered globals the body has three ways to go. *)
Lemma scan_body_registered (w : wake) (i : nat) (ec : list Z) (g : globals) :
  registered g -> (i < SZ_IDX)%nat ->
  scan_body w i ec g =
    let s := d_signal (w_dom w i) in
    let s' := d_signal_after (w_dom w i) in
    let r := revents (at_fds g i) in
    if (r =? 0) || (continue_event_loop (signalled s g) =? 0) then
      (signal_trace s g, Ret ec (signalled s g))
    else if file_gone r then
      (signal_trace s g ++ signal_trace s' g ++ [gone_msg], Exit ERROR_PRESSURE_FILE_GONE)
    else
      (signal_trace s g ++ signal_trace s' g ++
         report_trace w i ec (signalled s' (signalled s g)),
       Ret (upd i (int_add (nth i ec 0) 1) ec)
           (reported w i (signalled s' (signalled s g)))).
Proof.
  intros R Hi. rewrite scan_body_run, (registered_events g i R Hi). reflexivity.
Qed.

Lemma scan_registered (w : wake) (l : list nat) :
  forall ec g, registered g -> Forall (fun i => (i < SZ_IDX)%nat) l ->
  (forall ec' g', outcome_of (scan w l ec g) = Ret ec' g' -> registered g') /\
  (forall c, outcome_of (scan w l ec g) = Exit c -> c = ERROR_PRESSURE_FILE_GONE).
Proof.
  induction l as [|i l IH]; intros ec g R F.
  - cbn. split; [now intros ec' g' [= _ <-] | discriminate].
  - inversion F as [|? ? Hi F']; subst.
    rewrite scan_cons, bind_run, (scan_body_registered w i ec g R Hi). cbn zeta.
    pose proof (registered_signalled (d_signal (w_dom w i)) g R) as R'.
    pose proof (registered_signalled (d_signal_after (w_dom w i)) _ R') as R''.
    unfold outcome_of in *.
    destruct (_ || _); [exact (IH _ _ R' F')|].
    destruct (file_gone _); [cbn; split; [discriminate | now intros c [= <-]]|].
    exact (IH _ _ (registered_reported w i _ R'') F').
Qed.

Lemma iteration_registered (w : wake) (ec : list Z) (g : globals) :
  registered g ->
  (forall r g', outcome_of (iteration w ec g) = Ret r g' -> registered g') /\
  (forall c, outcome_of (iteration w ec g) = Exit c ->
             c = ERROR_PRESSURE_POLL_FDS \/ c = ERROR_PRESSURE_FILE_GONE).
Proof.
  intros R. rewrite iteration_run. cbn zeta.
  pose proof (registered_polled w _ (registered_signalled (w_signal w) g R)) as R'.
  pose proof (registered_signalled (w_signal_after w) _ R') as R''.
  unfold outcome_of.
  destruct (_ =? 0); [cbn; split; [now intros r g' [= _ <-] | discriminate]|].
  destruct (_ <? 0); [cbn; split; [discriminate | intros c [= <-]; now left]|].
  destruct (scan_registered w (seq 0 SZ_IDX) ec _ R'' three_indices) as (S1 & S2).
  unfold outcome_of in *.
  destruct (scan w _ ec _) as [t [ec' g'|c]]; cbn [snd] in *; split; try discriminate.
  - intros r g1 [= _ <-]. exact (S1 _ _ eq_refl).
  - intros c' [= <-]. right. now apply S2.
Qed.

(** The exit on an unrecognized event is out of reach once the three
    domains are registered: [events] is POLLPRI, never 0. *)
Lemma event_loop_never_unknown (ws : list wake) :
  forall ec g, registered g ->
  outcome_of (event_loop ws ec g) <> Exit ERROR_PRESSURE_EVENT_UNK.
Proof.
  induction ws as [|w ws IH]; intros ec g R.
  - rewrite event_loop_nil. now destruct (_ =? 1).
  - rewrite event_loop_cons. destruct (_ =? 1); [|discriminate].
    destruct (iteration_registered w ec g R) as (I1 & I2). unfold outcome_of in *.
    destruct (iteration w ec g) as [t [[ec'|] g'|c]]; cbn [snd] in *; try discriminate.
    + apply IH. exact (I1 _ _ eq_refl).
    + intros [= ->]. destruct (I2 _ eq_refl) as [H|H]; discriminate H.
Qed.

(** C2 fails on the code at this input: CPU signals POLLHUP, which is
    neither POLLPRI nor POLLERR; the loop prints a report for CPU with
    count 1 and goes back to [poll] instead of leaving with code 6. *)
Theorem unrecognized_event_is_reported :
  distress POLLHUP = false /\ file_gone POLLHUP = false /\
  reports (trace_of (run_main (sample_env [sample_wake POLLHUP 0 0]))) = [(FD_CPU_IDX, 1)] /\
  outcome_of (run_main (sample_env [sample_wake POLLHUP 0 0])) <>
    Exit ERROR_PRESSURE_EVENT_UNK /\
  exit_status (outcome_of (run_main (sample_env [sample_wake POLLHUP 0 0]))) = None.
Proof.
  split; [reflexivity|]. split; [reflexivity|]. split; [reflexivity|].
  split; [|reflexivity]. intros H. vm_compute in H. discriminate H.
Qed.

(** ** Report lines *)

Lemma reports_app (t1 t2 : list event) : reports (t1 ++ t2) = reports t1 ++ reports t2.
Proof. apply flat_map_app. Qed.

Lemma reports_signal_trace (s : option Z) (g : globals) : reports (signal_trace s g) = [].
Proof. now destruct s. Qed.

Lemma reports_report_trace (w : wake) (i : nat) (ec : list Z) (g : globals) :
  registered g -> (i < SZ_IDX)%nat ->
  reports (report_trace w i ec g) = [(i, nth i ec 0)].
Proof.
  intros R Hi. unfold report_trace, reports. cbn [flat_map report_of app].
  change (String.eqb report_fmt report_fmt) with true. cbn iota.
  now rewrite (registered_path g i R Hi).
Qed.

Lemma counts_of_app (i : nat) (t1 t2 : list event) :
  counts_of i (t1 ++ t2) = counts_of i t1 ++ counts_of i t2.
Proof. unfold counts_of. now rewrite reports_app, filter_app, map_app. Qed.

Lemma report_domains_app (t1 t2 : list event) :
  report_domains (t1 ++ t2) = report_domains t1 ++ report_domains t2.
Proof. unfold report_domains. now rewrite reports_app, map_app. Qed.

Lemma nth_upd_same {A} (i : nat) (v d : A) (l : list A) :
  (i < List.length l)%nat -> nth i (upd i v l) d = v.
Proof.
  revert i; induction l as [|x l IH]; intros [|i] H; cbn in *; try lia; try reflexivity.
  apply IH. lia.
Qed.

Lemma nth_upd_other {A} (i j : nat) (v d : A) (l : list A) :
  i <> j -> nth i (upd j v l) d = nth i l d.
Proof.
  revert i j; induction l as [|x l IH]; intros [|i] [|j] H; cbn; try reflexivity;
    try congruence.
  apply IH. congruence.
Qed.

(** The trace of the body for domain [j], read for the reports of domain
    [i]: at most one line, and only when [j] is [i]. *)
Lemma scan_body_counts (w : wake) (i j : nat) (ec : list Z) (g : globals) :
  registered g -> (j < SZ_IDX)%nat -> List.length ec = SZ_IDX ->
  let r := scan_body w j ec g in
  (counts_of i (trace_of r) = [] /\
   forall ec' g', outcome_of r = Ret ec' g' ->
     nth i ec' 0 = nth i ec 0 /\ List.length ec' = SZ_IDX /\ registered g') \/
  (j = i /\ counts_of i (trace_of r) = [nth i ec 0] /\
   forall ec' g', outcome_of r = Ret ec' g' ->
     nth i ec' 0 = int_add (nth i ec 0) 1 /\ List.length ec' = SZ_IDX /\ registered g').
Proof.
  intros R Hj Hl. cbn zeta. rewrite (scan_body_registered w j ec g R Hj). cbn zeta.
  pose proof (registered_signalled (d_signal (w_dom w j)) g R) as R'.
  pose proof (registered_signalled (d_signal_after (w_dom w j)) _ R') as R''.
  unfold trace_of, outcome_of, counts_of.
  destruct (_ || _); cbn [fst snd].
  { left. rewrite reports_signal_trace. split; [reflexivity|].
    now intros ec' g' [= <- <-]. }
  destruct (file_gone _); cbn [fst snd].
  { left. rewrite !reports_app, !reports_signal_trace. split; [reflexivity|discriminate]. }
  rewrite !reports_app, !reports_signal_trace, (reports_report_trace w j ec _ R'' Hj).
  cbn [app filter fst snd map].
  destruct (Nat.eqb_spec j i) as [->|N].
  - right. split; [reflexivity|]. split; [reflexivity|].
    intros ec' g' [= <- <-]. rewrite upd_length.
    split; [apply nth_upd_same; unfold SZ_IDX in *; lia|]. split; [exact Hl|exact R''].
  - left. split; [reflexivity|].
    intros ec' g' [= <- <-]. rewrite upd_length.
    split; [apply nth_upd_other; congruence|]. split; [exact Hl|exact R''].
Qed.

Lemma scan_counts (w : wake) (i : nat) (l : list nat) :
  forall ec g, registered g -> NoDup l -> Forall (fun j => (j < SZ_IDX)%nat) l ->
  List.length ec = SZ_IDX ->
  let r := scan w l ec g in
  (counts_of i (trace_of r) = [] /\
   forall ec' g', outcome_of r = Ret ec' g' ->
     nth i ec' 0 = nth i ec 0 /\ List.length ec' = SZ_IDX /\ registered g') \/
  (In i l /\ counts_of i (trace_of r) = [nth i ec 0] /\
   forall ec' g', outcome_of r = Ret ec' g' ->
     nth i ec' 0 = int_add (nth i ec 0) 1 /\ List.length ec' = SZ_IDX /\ registered g').
Proof.
  induction l as [|j l IH]; intros ec g R N F Hl; cbn zeta.
  - left. split; [reflexivity|]. now intros ec' g' [= <- <-].
  - inversion F as [|? ? Hj F']; subst. inversion N as [|? ? Nj N']; subst.
    rewrite scan_cons, bind_run.
    pose proof (scan_body_counts w i j ec g R Hj Hl) as B. cbn zeta in B.
    unfold trace_of, outcome_of in *.
    destruct (scan_body w j ec g) as [t [ec1 g1|c]]; cbn [fst snd] in *.
    + rewrite counts_of_app.
      destruct B as [(B1 & B2)|(-> & B1 & B2)];
        destruct (B2 _ _ eq_refl) as (E1 & E2 & E3);
        specialize (IH ec1 g1 E3 N' F' E2); cbn zeta in IH; rewrite B1, E1 in *.
      * destruct IH as [IH|(I0 & IH)]; [left; exact IH|right].
        split; [now right|exact IH].
      * destruct IH as [(I1 & I2)|(I0 & _)]; [|contradiction].
        right. split; [now left|]. rewrite I1. split; [reflexivity|exact I2].
    + destruct B as [(B1 & _)|(-> & B1 & _)].
      * left. split; [exact B1|discriminate].
      * right. split; [now left|]. split; [exact B1|discriminate].
Qed.
Lemma wrap_int_small (z : Z) : - 2 ^ 31 <= z < 2 ^ 31 -> wrap_int z = z.
Proof. intros H. unfold wrap_int. rewrite Z.mod_small; lia. Qed.

Lemma counts_of_poll (i : nat) (s : option Z) (g : globals) (n : Z) :
  counts_of i (signal_trace s g ++ [EPoll (-1) n]) = [].
Proof. unfold counts_of. now rewrite reports_app, reports_signal_trace. Qed.

Lemma counts_of_poll_signal (i : nat) (s s' : option Z) (g g' : globals) (n : Z) :
  counts_of i ((signal_trace s g ++ [EPoll (-1) n]) ++ signal_trace s' g') = [].
Proof. unfold counts_of. now rewrite !reports_app, !reports_signal_trace. Qed.

Lemma iteration_counts (w : wake) (i : nat) (ec : list Z) (g : globals) :
  registered g -> List.length ec = SZ_IDX ->
  let r := iteration w ec g in
  (counts_of i (trace_of r) = [] /\
   forall ec' g', outcome_of r = Ret (Some ec') g' ->
     nth i ec' 0 = nth i ec 0 /\ List.length ec' = SZ_IDX) \/
  (counts_of i (trace_of r) = [nth i ec 0] /\
   forall ec' g', outcome_of r = Ret (Some ec') g' ->
     nth i ec' 0 = int_add (nth i ec 0) 1 /\ List.length ec' = SZ_IDX).
Proof.
  intros R Hl. cbn zeta. rewrite iteration_run. cbn zeta.
  pose proof (registered_polled w _ (registered_signalled (w_signal w) g R)) as R'.
  pose proof (registered_signalled (w_signal_after w) _ R') as R''.
  unfold trace_of, outcome_of.
  destruct (_ =? 0); cbn [fst snd].
  { left. rewrite counts_of_poll. split; [reflexivity|discriminate]. }
  destruct (_ <? 0); cbn [fst snd].
  { left. rewrite counts_of_app, counts_of_poll_signal.
    split; [reflexivity|discriminate]. }
  assert (N : NoDup (seq 0 SZ_IDX)) by apply seq_NoDup.
  pose proof (scan_counts w i (seq 0 SZ_IDX) ec _ R'' N three_indices Hl) as S.
  cbn zeta in S. unfold trace_of, outcome_of in S.
  destruct (scan w _ ec _) as [t [ec' g'|c]]; cbn [fst snd] in *;
    rewrite counts_of_app, counts_of_poll_signal; cbn [app].
  - destruct S as [(S1 & S2)|(_ & S1 & S2)]; [left|right]; (split; [exact S1|]);
      intros ec1 g1 [= <- <-]; destruct (S2 _ _ eq_refl) as (E1 & E2 & _); tauto.
  - destruct S as [(S1 & _)|(_ & S1 & _)]; [left|right]; (split; [exact S1|discriminate]).
Qed.

(** The counts printed for a domain along the loop are consecutive. *)
Lemma event_loop_counts (i : nat) (ws : list wake) :
  forall ec g, registered g -> List.length ec = SZ_IDX ->
  0 <= nth i ec 0 -> nth i ec 0 + Z.of_nat (List.length ws) <= INT_MAX ->
  exists k, (k <= List.length ws)%nat /\
    counts_of i (trace_of (event_loop ws ec g)) =
      map (fun n => nth i ec 0 + Z.of_nat n) (seq 0 k).
Proof.
  induction ws as [|w ws IH]; intros ec g R Hl H0 Hmax.
  - exists 0%nat. split; [lia|]. rewrite event_loop_nil. now destruct (_ =? 1).
  - rewrite event_loop_cons. destruct (_ =? 1); [|exists 0%nat; split; [cbn; lia|reflexivity]].
    pose proof (iteration_counts w i ec g R Hl) as C. cbn zeta in C.
    destruct (iteration_registered w ec g R) as (I1 & _).
    unfold trace_of, outcome_of in *. cbn [List.length] in Hmax.
    destruct (iteration w ec g) as [t [[ec'|] g'|c]]; cbn [fst snd] in *.
    + rewrite counts_of_app.
      destruct C as [(C1 & C2)|(C1 & C2)]; destruct (C2 _ _ eq_refl) as (E1 & E2);
        rewrite C1.
      * destruct (IH ec' g' (I1 _ _ eq_refl) E2) as (k & Hk & Hc); [lia..|].
        exists k. split; [cbn; lia|]. rewrite Hc, E1. reflexivity.
      * assert (E : nth i ec' 0 = nth i ec 0 + 1).
        { rewrite E1. unfold int_add. apply wrap_int_small. unfold INT_MAX in Hmax. lia. }
        destruct (IH ec' g' (I1 _ _ eq_refl) E2) as (k & Hk & Hc); [lia..|].
        exists (S k). split; [cbn; lia|]. rewrite Hc, E. cbn [seq map app].
        rewrite Z.add_0_r. f_equal. rewrite <- seq_shift, map_map.
        apply map_ext. intros n. lia.
    + destruct C as [(C1 & _)|(C1 & _)]; rewrite C1;
        [exists 0%nat | exists 1%nat]; (split; [cbn; lia|]); cbn; now rewrite ?Z.add_0_r.
    + destruct C as [(C1 & _)|(C1 & _)]; rewrite C1;
        [exists 0%nat | exists 1%nat]; (split; [cbn; lia|]); cbn; now rewrite ?Z.add_0_r.
Qed.

Lemma counts_of_report_trace (w : wake) (i j : nat) (ec : list Z) (g : globals) :
  registered g -> (j < SZ_IDX)%nat ->
  counts_of i (report_trace w j ec g) = if Nat.eqb j i then [nth j ec 0] else [].
Proof.
  intros R Hj. unfold counts_of. rewrite (reports_report_trace w j ec g R Hj).
  cbn [filter fst]. now destruct (Nat.eqb j i).
Qed.

Lemma distress_signalled (r : Z) : distress r = true -> (r =? 0) = false /\ file_gone r = false.
Proof.
  unfold distress. intros H. apply andb_prop in H as (H1 & H2).
  apply negb_true_iff in H2. split; [|exact H2].
  destruct (Z.eqb_spec r 0) as [->|]; [discriminate H1|reflexivity].
Qed.

(** In a scan with no signal, a domain in distress gets its report when
    no domain examined before it signals that its file is gone. *)
Lemma scan_distress (w : wake) (i : nat) (l : list nat) :
  forall ec g, registered g -> continue_event_loop g = 1 ->
  StronglySorted lt l -> Forall (fun j => (j < SZ_IDX)%nat) l ->
  List.length ec = SZ_IDX ->
  (forall j, In j l -> d_signal (w_dom w j) = None) ->
  (forall j, In j l -> d_signal_after (w_dom w j) = None) ->
  In i l -> distress (revents (at_fds g i)) = true ->
  (forall j, In j l -> (j < i)%nat -> file_gone (revents (at_fds g j)) = false) ->
  counts_of i (trace_of (scan w l ec g)) = [nth i ec 0].
Proof.
  induction l as [|j l IH]; intros ec g R Hg S F Hl Q T Hi D G; [destruct Hi|].
  inversion F as [|? ? Hj F']; subst. apply StronglySorted_inv in S as (S' & Sj).
  rewrite scan_cons, bind_run, (scan_body_registered w j ec g R Hj). cbn zeta.
  rewrite (Q j (or_introl eq_refl)), (T j (or_introl eq_refl)).
  cbn [signalled signal_trace]. rewrite Hg.
  cbn [Z.eqb]. rewrite orb_false_r, !app_nil_l. unfold trace_of, outcome_of in *.
  assert (N' : NoDup l).
  { clear -S'. induction S' as [|a l S' IHS Ha]; constructor; [|exact IHS].
    intros H. rewrite Forall_forall in Ha. specialize (Ha a H). lia. }
  destruct Hi as [->|Hi].
  - destruct (distress_signalled _ D) as (D1 & D2). rewrite D1, D2. cbn [fst snd].
    cbn [app]. rewrite counts_of_app, (counts_of_report_trace w i i ec g R Hj), Nat.eqb_refl.
    cbn [app]. f_equal.
    assert (Hl' : List.length (upd i (int_add (nth i ec 0) 1) ec) = SZ_IDX)
      by now rewrite upd_length.
    destruct (scan_counts w i l _ (reported w i g) R N' F' Hl') as [(C & _)|(C & _)].
    + exact C.
    + exfalso. rewrite Forall_forall in Sj. specialize (Sj i C). lia.
  - assert (Lt : (j < i)%nat) by (rewrite Forall_forall in Sj; exact (Sj i Hi)).
    rewrite (G j (or_introl eq_refl) Lt).
    assert (Q' : forall k, In k l -> d_signal (w_dom w k) = None)
      by (intros k Hk; apply Q; now right).
    assert (T' : forall k, In k l -> d_signal_after (w_dom w k) = None)
      by (intros k Hk; apply T; now right).
    assert (G' : forall k, In k l -> (k < i)%nat -> file_gone (revents (at_fds g k)) = false)
      by (intros k Hk; apply G; now right).
    destruct (revents (at_fds g j) =? 0); cbn [fst snd].
    + exact (IH ec g R Hg S' F' Hl Q' T' Hi D G').
    + cbn [app]. rewrite counts_of_app, (counts_of_report_trace w i j ec g R Hj).
      destruct (Nat.eqb_spec j i) as [E|_]; [lia|]. cbn [app].
      rewrite (IH _ (reported w j g) R Hg S' F'); try assumption.
      * f_equal. apply nth_upd_other. lia.
      * now rewrite upd_length.
Qed.

Lemma sorted_indices : StronglySorted lt (seq 0 SZ_IDX).
Proof. repeat constructor. Qed.
Lemma quiet_iteration (w : wake) (ec : list Z) (g : globals) :
  continue_event_loop g = 1 -> quiet w -> 0 <= w_ret w ->
  iteration w ec g =
    match scan w (seq 0 SZ_IDX) ec (polled w g) with
    | (t, Ret ec' g') => (EPoll (-1) (w_ret w) :: t, Ret (Some ec') g')
    | (t, Exit c) => (EPoll (-1) (w_ret w) :: t, Exit c)
    end.
Proof.
  intros Hg ((Q & _) & (T & _)) Hn. rewrite iteration_run, Q, T. cbn zeta.
  cbn [signalled signal_trace]. rewrite polled_run_flag, Hg. cbn [Z.eqb].
  apply Z.ltb_ge in Hn. rewrite Hn. reflexivity.
Qed.

(** C6, as the code has it.  In a wake with no termination signal whose
    [poll] did not fail, a domain in distress gets exactly one report
    line, printing its current count, provided no domain before it (in
    the order CPU, IO, MEMORY) signalled that its file is gone.  Along a
    whole run the counts printed for a domain are 1, 2, 3, ... (an [int]
    holds them: fewer than INT_MAX wakes). *)
Theorem report_counts (g : globals) (i : nat) :
  registered g -> (i < SZ_IDX)%nat ->
  (forall w ec,
     continue_event_loop g = 1 -> quiet w -> 0 <= w_ret w ->
     List.length ec = SZ_IDX ->
     distress (d_revents (w_dom w i)) = true ->
     (forall j, (j < i)%nat -> file_gone (d_revents (w_dom w j)) = false) ->
     counts_of i (trace_of (iteration w ec g)) = [nth i ec 0]) /\
  (forall ws,
     Z.of_nat (List.length ws) < INT_MAX ->
     exists k, (k <= List.length ws)%nat /\
       counts_of i (trace_of (pressure_event_loop ws g)) = map Z.of_nat (seq 1 k)).
Proof.
  intros R Hi. split.
  - intros w ec Hg Q Hn Hl D G. rewrite (quiet_iteration w ec g Hg Q Hn).
    pose proof (registered_polled w g R) as R'.
    assert (S : counts_of i (trace_of (scan w (seq 0 SZ_IDX) ec (polled w g))) = [nth i ec 0]).
    { apply scan_distress; try assumption.
      - apply sorted_indices.
      - apply three_indices.
      - intros j Hj. apply (proj2 (proj1 Q)). apply in_seq in Hj. lia.
      - intros j Hj. apply (proj2 (proj2 Q)). apply in_seq in Hj. lia.
      - apply in_seq. lia.
      - now rewrite polled_revents.
      - intros j Hj Lt. rewrite polled_revents; [now apply G | exact R | lia]. }
    unfold trace_of in *.
    destruct (scan w _ ec _) as [t [ec' g'|c]]; exact S.
  - intros ws Hmax. rewrite pressure_event_loop_run.
    assert (H1 : nth i [1; 1; 1] 0 = 1) by now three i.
    destruct (event_loop_counts i ws [1; 1; 1] g R eq_refl) as (k & Hk & Hc);
      [rewrite H1; lia..|].
    exists k. split; [exact Hk|].
    change (counts_of i (trace_of (event_loop ws [1; 1; 1] g)) = map Z.of_nat (seq 1 k)).
    rewrite Hc, H1, <- seq_shift, map_map. apply map_ext. intros n. lia.
Qed.

Lemma report_counts_witness :
  counts_of FD_IO_IDX
    (trace_of (iteration (sample_wake POLLPRI POLLPRI 0) [4; 7; 1] sample_globals)) = [7].
Proof.
  apply (proj1 (report_counts sample_globals FD_IO_IDX sample_registered
                  ltac:(unfold FD_IO_IDX, SZ_IDX; lia))).
  - reflexivity.
  - split; (split; [reflexivity | intros; reflexivity]).
  - cbn; lia.
  - reflexivity.
  - reflexivity.
  - intros j Hj. unfold FD_IO_IDX in Hj. assert (j = 0%nat) as -> by lia. reflexivity.
Defined.

(** C6 as stated fails: in this wake IO is in distress, but CPU signals
    that its file is gone; the scan leaves at CPU and IO gets no line. *)
Lemma distress_unreported_after_file_gone :
  distress (d_revents (w_dom (sample_wake POLLERR POLLPRI 0) FD_IO_IDX)) = true /\
  counts_of FD_IO_IDX
    (trace_of (iteration (sample_wake POLLERR POLLPRI 0) [1; 1; 1] sample_globals)) = [] /\
  outcome_of (iteration (sample_wake POLLERR POLLPRI 0) [1; 1; 1] sample_globals) =
    Exit ERROR_PRESSURE_FILE_GONE.
Proof. repeat split. Qed.

(** ** The order of the reports of one wake *)

Lemma report_domains_report_trace (w : wake) (i : nat) (ec : list Z) (g : globals) :
  registered g -> (i < SZ_IDX)%nat -> report_domains (report_trace w i ec g) = [i].
Proof.
  intros R Hi. unfold report_domains. now rewrite (reports_report_trace w i ec g R Hi).
Qed.

Lemma report_domains_signal_trace (s : option Z) (g : globals) :
  report_domains (signal_trace s g) = [].
Proof. unfold report_domains. now rewrite reports_signal_trace. Qed.

(** Whatever happens during the scan, the domains reported are taken
    from the scanned indices in the order of the scan. *)
Lemma scan_sorted (w : wake) (l : list nat) :
  forall ec g, registered g -> StronglySorted lt l ->
  Forall (fun j => (j < SZ_IDX)%nat) l ->
  StronglySorted lt (report_domains (trace_of (scan w l ec g))) /\
  Forall (fun d => In d l) (report_domains (trace_of (scan w l ec g))).
Proof.
  induction l as [|j l IH]; intros ec g R S F.
  - cbn. split; constructor.
  - inversion F as [|? ? Hj F']; subst. apply StronglySorted_inv in S as (S' & Sj).
    rewrite scan_cons, bind_run, (scan_body_registered w j ec g R Hj). cbn zeta.
    pose proof (registered_signalled (d_signal (w_dom w j)) g R) as R'.
    pose proof (registered_signalled (d_signal_after (w_dom w j)) _ R') as R''.
    assert (Tl : forall ec1 g1, registered g1 ->
              StronglySorted lt (report_domains (trace_of (scan w l ec1 g1))) /\
              Forall (fun d => In d (j :: l)) (report_domains (trace_of (scan w l ec1 g1)))).
    { intros ec1 g1 R1. destruct (IH ec1 g1 R1 S' F') as (I1 & I2). split; [exact I1|].
      eapply Forall_impl; [|exact I2]. intros d Hd. now right. }
    unfold trace_of, outcome_of in *.
    destruct (_ || _); cbn [fst snd].
    { rewrite report_domains_app, report_domains_signal_trace. exact (Tl _ _ R'). }
    destruct (file_gone _); cbn [fst snd].
    { rewrite !report_domains_app, !report_domains_signal_trace. cbn. split; constructor. }
    rewrite !report_domains_app, !report_domains_signal_trace,
      (report_domains_report_trace w j ec _ R'' Hj). cbn [app].
    destruct (IH (upd j (int_add (nth j ec 0) 1) ec) _ (registered_reported w j _ R'') S' F')
      as (I1 & I2).
    split.
    + constructor; [exact I1|]. rewrite Forall_forall in *. intros d Hd.
      exact (Sj d (I2 d Hd)).
    + constructor; [now left|]. eapply Forall_impl; [|exact I2]. intros d Hd. now right.
Qed.

(** With no signal and no file gone, the scan reports every domain whose
    [revents] is not 0. *)
Lemma scan_quiet (w : wake) (l : list nat) :
  forall ec g, registered g -> continue_event_loop g = 1 ->
  Forall (fun j => (j < SZ_IDX)%nat) l ->
  (forall j, In j l -> d_signal (w_dom w j) = None) ->
  (forall j, In j l -> d_signal_after (w_dom w j) = None) ->
  (forall j, In j l -> file_gone (revents (at_fds g j)) = false) ->
  report_domains (trace_of (scan w l ec g)) =
    filter (fun j => negb (revents (at_fds g j) =? 0)) l.
Proof.
  induction l as [|j l IH]; intros ec g R Hg F Q T G; [reflexivity|].
  inversion F as [|? ? Hj F']; subst.
  rewrite scan_cons, bind_run, (scan_body_registered w j ec g R Hj). cbn zeta.
  rewrite (Q j (or_introl eq_refl)), (T j (or_introl eq_refl)), (G j (or_introl eq_refl)).
  cbn [signalled signal_trace filter]. rewrite Hg. cbn [Z.eqb].
  rewrite orb_false_r, !app_nil_l. unfold trace_of, outcome_of in *.
  assert (Q' : forall k, In k l -> d_signal (w_dom w k) = None)
    by (intros k Hk; apply Q; now right).
  assert (T' : forall k, In k l -> d_signal_after (w_dom w k) = None)
    by (intros k Hk; apply T; now right).
  assert (G' : forall k, In k l -> file_gone (revents (at_fds g k)) = false)
    by (intros k Hk; apply G; now right).
  destruct (revents (at_fds g j) =? 0); cbn [fst snd negb].
  - exact (IH ec g R Hg F' Q' T' G').
  - rewrite report_domains_app, (report_domains_report_trace w j ec g R Hj).
    cbn [app]. f_equal. exact (IH _ (reported w j g) R Hg F' Q' T' G').
Qed.

Lemma report_domains_poll (s : option Z) (g : globals) (n : Z) :
  report_domains (signal_trace s g ++ [EPoll (-1) n]) = [].
Proof. now rewrite report_domains_app, report_domains_signal_trace. Qed.

Lemma report_domains_poll_signal (s s' : option Z) (g g' : globals) (n : Z) :
  report_domains ((signal_trace s g ++ [EPoll (-1) n]) ++ signal_trace s' g') = [].
Proof. now rewrite !report_domains_app, !report_domains_signal_trace. Qed.

(** C7.  The reports of one wake come in the order CPU, IO, MEMORY: the
    indices of the domains reported are strictly increasing; in a wake
    with no termination signal, no failed [poll] and no file gone they
    are the domains whose [revents] is not 0, in that order. *)
Theorem reports_in_domain_order (w : wake) (ec : list Z) (g : globals) :
  registered g ->
  StronglySorted lt (report_domains (trace_of (iteration w ec g))) /\
  (continue_event_loop g = 1 -> quiet w -> 0 <= w_ret w ->
   (forall j, (j < SZ_IDX)%nat -> file_gone (d_revents (w_dom w j)) = false) ->
   report_domains (trace_of (iteration w ec g)) =
     filter (fun j => negb (d_revents (w_dom w j) =? 0))
            [FD_CPU_IDX; FD_IO_IDX; FD_MEMORY_IDX]).
Proof.
  intros R. split.
  - rewrite iteration_run. cbn zeta.
    pose proof (registered_polled w _ (registered_signalled (w_signal w) g R)) as R'.
    pose proof (registered_signalled (w_signal_after w) _ R') as R''.
    unfold trace_of.
    destruct (_ =? 0); cbn [fst]; [rewrite report_domains_poll; constructor|].
    destruct (_ <? 0); cbn [fst].
    { rewrite report_domains_app, report_domains_poll_signal. constructor. }
    destruct (scan_sorted w (seq 0 SZ_IDX) ec _ R'' sorted_indices three_indices) as (S & _).
    unfold trace_of in S.
    destruct (scan w _ ec _) as [t [ec' g'|c]]; cbn [fst] in *;
      now rewrite report_domains_app, report_domains_poll_signal.
  - intros Hg Q Hn G. rewrite (quiet_iteration w ec g Hg Q Hn).
    pose proof (registered_polled w g R) as R'.
    assert (S : report_domains (trace_of (scan w (seq 0 SZ_IDX) ec (polled w g))) =
                filter (fun j => negb (revents (at_fds (polled w g) j) =? 0)) (seq 0 SZ_IDX)).
    { apply scan_quiet; try assumption.
      - apply three_indices.
      - intros j Hj. apply (proj2 (proj1 Q)). apply in_seq in Hj. lia.
      - intros j Hj. apply (proj2 (proj2 Q)). apply in_seq in Hj. lia.
      - intros j Hj. apply in_seq in Hj. rewrite polled_revents; [apply G | exact R |]; lia. }
    cbn [seq SZ_IDX filter] in S.
    rewrite !(polled_revents w g _ R) in S by (unfold SZ_IDX; lia).
    unfold trace_of in *.
    destruct (scan w _ ec _) as [t [ec' g'|c]]; exact S.
Qed.

Lemma reports_in_domain_order_witness :
  report_domains
    (trace_of (iteration (sample_wake POLLPRI POLLPRI POLLPRI) [1; 1; 1] sample_globals)) =
  [FD_CPU_IDX; FD_IO_IDX; FD_MEMORY_IDX].
Proof.
  apply (proj2 (reports_in_domain_order (sample_wake POLLPRI POLLPRI POLLPRI) [1; 1; 1]
                  sample_globals sample_registered)).
  - reflexivity.
  - split; (split; [reflexivity | intros; reflexivity]).
  - cbn; lia.
  - intros j Hj. unfold SZ_IDX in Hj.
    destruct j as [|[|[|j]]]; [reflexivity..|lia].
Defined.

(** ** A file that is gone *)

Lemma file_gone_nonzero (r : Z) : file_gone r = true -> (r =? 0) = false.
Proof. destruct (Z.eqb_spec r 0) as [->|]; [discriminate|reflexivity]. Qed.

Lemma scan_gone (w : wake) (l : list nat) :
  forall ec g, registered g -> continue_event_loop g = 1 ->
  Forall (fun j => (j < SZ_IDX)%nat) l ->
  (forall j, In j l -> d_signal (w_dom w j) = None) ->
  (forall j, In j l -> d_signal_after (w_dom w j) = None) ->
  (exists i, In i l /\ file_gone (revents (at_fds g i)) = true) ->
  exists t, scan w l ec g = (t ++ [gone_msg], Exit ERROR_PRESSURE_FILE_GONE).
Proof.
  induction l as [|j l IH]; intros ec g R Hg F Q T (i & Hi & E); [destruct Hi|].
  inversion F as [|? ? Hj F']; subst.
  rewrite scan_cons, bind_run, (scan_body_registered w j ec g R Hj). cbn zeta.
  rewrite (Q j (or_introl eq_refl)), (T j (or_introl eq_refl)).
  cbn [signalled signal_trace]. rewrite Hg.
  cbn [Z.eqb]. rewrite orb_false_r, !app_nil_l.
  assert (Q' : forall k, In k l -> d_signal (w_dom w k) = None)
    by (intros k Hk; apply Q; now right).
  assert (T' : forall k, In k l -> d_signal_after (w_dom w k) = None)
    by (intros k Hk; apply T; now right).
  destruct (file_gone (revents (at_fds g j))) eqn:Ej.
  - rewrite (file_gone_nonzero _ Ej). now exists [].
  - assert (I' : exists i, In i l /\ file_gone (revents (at_fds g i)) = true).
    { exists i. split; [|exact E]. destruct Hi as [->|Hi]; [congruence|exact Hi]. }
    unfold trace_of, outcome_of.
    destruct (revents (at_fds g j) =? 0); cbn [fst snd].
    + destruct (IH ec g R Hg F' Q' T' I') as (t & ->). now exists t.
    + destruct (IH (upd j (int_add (nth j ec 0) 1) ec) (reported w j g) R Hg F' Q' T' I')
        as (t & ->).
      exists (report_trace w j ec g ++ t). cbn [fst snd]. now rewrite app_assoc.
Qed.

(** C8, as the code has it.  In a wake of the running loop in which no
    termination signal is handled and the [poll] did not fail, a domain
    that signals that its file is gone makes the process print the
    message and leave with exit code 5; nothing follows, whatever further
    wakes were to come.  (A domain examined after a termination signal
    was handled is skipped, file gone or not.) *)
Theorem file_gone_is_fatal (w : wake) (ec : list Z) (g : globals) (i : nat) :
  registered g -> continue_event_loop g = 1 -> quiet w -> 0 <= w_ret w ->
  (i < SZ_IDX)%nat -> file_gone (d_revents (w_dom w i)) = true ->
  exists t, forall ws,
    event_loop (w :: ws) ec g = (t ++ [gone_msg], Exit ERROR_PRESSURE_FILE_GONE) /\
    exit_status (outcome_of (event_loop (w :: ws) ec g)) = Some ERROR_PRESSURE_FILE_GONE.
Proof.
  intros R Hg Q Hn Hi E.
  destruct (scan_gone w (seq 0 SZ_IDX) ec (polled w g)) as (t & S).
  - now apply registered_polled.
  - exact Hg.
  - apply three_indices.
  - intros j Hj. apply (proj2 (proj1 Q)). apply in_seq in Hj. lia.
  - intros j Hj. apply (proj2 (proj2 Q)). apply in_seq in Hj. lia.
  - exists i. split; [apply in_seq; lia|]. now rewrite polled_revents.
  - exists (EPoll (-1) (w_ret w) :: t). intros ws.
    rewrite event_loop_cons, Hg, (quiet_iteration w ec g Hg Q Hn), S. now split.
Qed.

Lemma file_gone_is_fatal_witness :
  exists t, forall ws,
    event_loop (sample_wake POLLPRI POLLERR POLLPRI :: ws) [1; 1; 1] sample_globals =
      (t ++ [gone_msg], Exit ERROR_PRESSURE_FILE_GONE) /\
    exit_status (outcome_of (event_loop (sample_wake POLLPRI POLLERR POLLPRI :: ws)
                                        [1; 1; 1] sample_globals)) =
      Some ERROR_PRESSURE_FILE_GONE.
Proof.
  apply (file_gone_is_fatal (sample_wake POLLPRI POLLERR POLLPRI) [1; 1; 1]
           sample_globals FD_IO_IDX sample_registered).
  - reflexivity.
  - split; (split; [reflexivity | intros; reflexivity]).
  - cbn; lia.
  - unfold FD_IO_IDX, SZ_IDX; lia.
  - reflexivity.
Defined.

(** C8 as stated fails: CPU is reported, then SIGTERM is handled; IO
    signals that its file is gone, but the loop finds the run flag
    cleared and skips it: stderr gets the lines of the handler and no
    other, and main returns 0. *)
Lemma file_gone_skipped_after_signal :
  file_gone (d_revents (w_dom (signal_before_io_wake POLLPRI POLLERR 0) FD_IO_IDX)) = true /\
  0 <= w_ret (signal_before_io_wake POLLPRI POLLERR 0) /\
  reports (trace_of (run_main (sample_env [signal_before_io_wake POLLPRI POLLERR 0]))) =
    [(FD_CPU_IDX, 1)] /\
  eprints (trace_of (run_main (sample_env [signal_before_io_wake POLLPRI POLLERR 0]))) =
    [ "Please wait until all three file descriptors are closed\n";
      "Closing file descriptor fds[%i] for %s\n";
      "Closing file descriptor fds[%i] for %s\n";
      "Closing file descriptor fds[%i] for %s\n";
      "\nAll file descriptors now closed, exiting now!\n" ] /\
  exit_status (outcome_of (run_main (sample_env [signal_before_io_wake POLLPRI POLLERR 0]))) =
    Some 0.
Proof.
  split; [reflexivity|]. split; [cbn; lia|]. split; [reflexivity|]. split; reflexivity.
Qed.

(** ** set_content_str *)

Lemma set_content_str_run (r : read_in) (i : nat) (g : globals) :
  set_content_str r i g =
    ([ EOpen (at_file g i) (Z.lor O_NONBLOCK O_RDONLY) (ro_fd r);
       ERead (ro_fd r) SZ_CONTENT (read_ret r SZ_CONTENT);
       EClose (ro_fd r) ],
     Ret tt (set_content (store_prefix (read_bytes r SZ_CONTENT)
                            (store_prefix (memset_zero SZ_CONTENT) (content_str g))) g)).
Proof. reflexivity. Qed.

Lemma skipn_repeat_nul (k n : nat) : skipn k (repeat NUL n) = repeat NUL (n - k).
Proof.
  revert n; induction k as [|k IH]; intros [|n]; cbn; try reflexivity. apply IH.
Qed.

Lemma read_bytes_length (r : read_in) (n : nat) : (List.length (read_bytes r n) <= n)%nat.
Proof.
  unfold read_bytes. destruct (ro_fd r <? 0); [cbn [List.length]; lia|].
  rewrite length_firstn. lia.
Qed.

Lemma read_bytes_length_file (r : read_in) (n : nat) :
  (List.length (read_bytes r n) <= List.length (file r))%nat.
Proof.
  unfold read_bytes. destruct (ro_fd r <? 0); [cbn [List.length]; lia|].
  rewrite length_firstn. lia.
Qed.

(** The array after the read: the bytes read, then zeros up to its 128
    bytes; nothing of the previous content is left and the array keeps
    its size. *)
Lemma content_after_read (r : read_in) (i : nat) (g g' : globals) :
  List.length (content_str g) = SZ_CONTENT ->
  outcome_of (set_content_str r i g) = Ret tt g' ->
  content_str g' =
    read_bytes r SZ_CONTENT ++
    repeat NUL (SZ_CONTENT - List.length (read_bytes r SZ_CONTENT)) /\
  List.length (content_str g') = SZ_CONTENT.
Proof.
  intros Hl. rewrite set_content_str_run. intros [= <-]. cbn [content_str set_content].
  assert (Z0 : store_prefix (memset_zero SZ_CONTENT) (content_str g) = repeat NUL SZ_CONTENT).
  { unfold store_prefix, memset_zero. rewrite repeat_length, skipn_all2 by lia.
    apply app_nil_r. }
  rewrite Z0. unfold store_prefix. rewrite skipn_repeat_nul. split; [reflexivity|].
  rewrite length_app, repeat_length. pose proof (read_bytes_length r SZ_CONTENT). lia.
Qed.

Lemma until_nul_app_nul (l : list ascii) (n : nat) :
  (0 < n)%nat -> until_nul (l ++ repeat NUL n) <> None.
Proof.
  intros Hn. induction l as [|c l IH]; cbn.
  - destruct n; [lia|]. cbn. discriminate.
  - destruct (Ascii.eqb c NUL); [discriminate|].
    destruct (until_nul _); [discriminate | contradiction].
Qed.

(** A read of fewer than 128 bytes leaves a terminated string. *)
Lemma short_read_terminated (r : read_in) (i : nat) (g g' : globals) :
  List.length (content_str g) = SZ_CONTENT ->
  (List.length (file r) < SZ_CONTENT)%nat ->
  outcome_of (set_content_str r i g) = Ret tt g' ->
  c_str (content_str g') <> None.
Proof.
  intros Hl Hf H. destruct (content_after_read r i g g' Hl H) as (E & _).
  rewrite E. unfold c_str.
  pose proof (read_bytes_length_file r SZ_CONTENT) as L.
  pose proof (until_nul_app_nul (read_bytes r SZ_CONTENT)
                (SZ_CONTENT - List.length (read_bytes r SZ_CONTENT)) ltac:(lia)) as N.
  destruct (until_nul _); [discriminate | contradiction].
Qed.

(** C10 fails on the code at this input: the file holds 128 bytes or
    more, [read] fills the whole array and leaves no NUL in it; the [%s]
    of the report then runs past the end of content_str. *)
Theorem full_read_not_terminated :
  List.length (file long_read) = 130%nat /\
  content_str long_read_globals = firstn SZ_CONTENT (file long_read) /\
  List.length (content_str long_read_globals) = SZ_CONTENT /\
  c_str (content_str long_read_globals) = None /\
  report_args (trace_of (iteration long_read_wake [1; 1; 1] sample_globals)) =
    [[AStr CPU_PRESSURE_FILE; AInt 1; AStr "2026-01-01 00:00:00"; ABuf None]].
Proof. repeat split. Qed.

(** ** A second signal *)

Lemma run_app (m : machine) (l1 l2 : list input) : run m (l1 ++ l2) = run (run m l1) l2.
Proof. apply fold_left_app. Qed.

Lemma run_ticks_idle (m : machine) (n : nat) :
  m_stack m = [] -> run m (repeat Tick n) = m.
Proof.
  intros H. induction n as [|n IH]; [reflexivity|].
  cbn [repeat run fold_left]. unfold step at 2. rewrite H.
  destruct (m_exit m); exact IH.
Qed.

Lemma rerun_permutation {A} (j : nat) (t : list A) :
  Permutation (firstn j t ++ t ++ skipn j t) (t ++ t).
Proof.
  rewrite <- (firstn_skipn j t) at 4.
  rewrite <- app_assoc. apply Permutation_app_head, Permutation_app_comm.
Qed.

(** One signal: the machine runs sig_handler, as the loop model has it. *)
Lemma single_signal (g : globals) (s : Z) :
  let m := run (idle g) (Arrive s :: repeat Tick 17) in
  m_stack m = [] /\ m_trace m = trace_of (sig_handler s g) /\
  Ret tt (m_globals m) = outcome_of (sig_handler s g).
Proof. repeat split. Qed.

(** Where the second run of the handler sits in the trace: inside the
    first one when the signals differ, after it when they are the same
    (the signal is blocked while its own handler runs). *)
Lemma two_signals_run (g : globals) (s1 s2 : Z) (k : nat) :
  In s1 [SIGINT; SIGTERM] -> In s2 [SIGINT; SIGTERM] ->
  (k <= List.length (sig_handler_steps s1))%nat ->
  let m := run (idle g) (two_signals s1 s2 k 34) in
  m_stack m = [] /\ m_pending m = [] /\ m_exit m = None /\
  m_globals m = set_run 0 g /\
  m_trace m =
    let j := if s1 =? s2 then List.length (handler_trace g) else k in
    firstn j (handler_trace g) ++ handler_trace g ++ skipn j (handler_trace g).
Proof.
  intros [<-|[<-|[]]] [<-|[<-|[]]] Hk; cbn in Hk;
    do 17 (destruct k as [|k]; [repeat split|]); exfalso; lia.
Qed.
(** C3, as the code has it.  A second termination signal that arrives
    while the handler of the first is running opens no file, but it runs
    sig_handler a second time in full (at once when it is the other
    signal, after the first run returns when it is the same one): the
    drain starts again at CPU and [close] is called a second time on each
    of the three descriptors.  The run flag stays 0. *)
Theorem second_signal_reruns_handler (g : globals) (s1 s2 : Z) (k n : nat) :
  In s1 [SIGINT; SIGTERM] -> In s2 [SIGINT; SIGTERM] ->
  (k <= List.length (sig_handler_steps s1))%nat -> (34 <= n)%nat ->
  let m := run (idle g) (two_signals s1 s2 k n) in
  m_stack m = [] /\ m_pending m = [] /\
  continue_event_loop (m_globals m) = 0 /\
  opens (m_trace m) = [] /\
  (exists j, m_trace m =
             firstn j (handler_trace g) ++ handler_trace g ++ skipn j (handler_trace g)) /\
  Permutation (closes (m_trace m))
              ([fd (at_fds g FD_CPU_IDX); fd (at_fds g FD_IO_IDX); fd (at_fds g FD_MEMORY_IDX)] ++
               [fd (at_fds g FD_CPU_IDX); fd (at_fds g FD_IO_IDX); fd (at_fds g FD_MEMORY_IDX)]).
Proof.
  intros H1 H2 Hk Hn. cbn zeta.
  destruct (two_signals_run g s1 s2 k H1 H2 Hk) as (St & Pe & _ & Gl & Tr).
  cbn zeta in Tr.
  assert (E : run (idle g) (two_signals s1 s2 k n) = run (idle g) (two_signals s1 s2 k 34)).
  { replace n with (34 + (n - 34))%nat by lia. unfold two_signals.
    rewrite repeat_app, !app_comm_cons, !app_assoc, run_app.
    rewrite run_ticks_idle; [reflexivity|].
    rewrite <- St. unfold two_signals. now rewrite !app_comm_cons. }
  rewrite E, St, Pe, Gl, Tr.
  set (j := if s1 =? s2 then List.length (handler_trace g) else k).
  pose proof (rerun_permutation j (handler_trace g)) as P.
  split; [reflexivity|]. split; [reflexivity|]. split; [reflexivity|]. split; [|split].
  - apply Permutation_nil. symmetry.
    exact (Permutation_flat_map
             (fun e => match e with EOpen p _ _ => [p] | _ => [] end) P).
  - now exists j.
  - exact (Permutation_flat_map
             (fun e => match e with EClose f => [f] | _ => [] end) P).
Qed.

Lemma second_signal_reruns_handler_witness :
  Permutation
    (closes (m_trace (run (idle sample_globals) (two_signals SIGINT SIGTERM 8 40))))
    ([3; 4; 5] ++ [3; 4; 5]).
Proof.
  apply (second_signal_reruns_handler sample_globals SIGINT SIGTERM 8 40).
  - now left.
  - right; now left.
  - cbn; lia.
  - lia.
Defined.

(** C3 as stated fails: SIGINT arrives, its handler closes the CPU
    descriptor, then SIGTERM arrives: the drain starts over and each of
    the descriptors 3, 4 and 5 is closed twice. *)
Lemma second_signal_closes_twice :
  closes (m_trace (run (idle sample_globals) (two_signals SIGINT SIGTERM 8 40))) =
    [3; 3; 4; 5; 4; 5] /\
  count_occ Z.eq_dec
    (closes (m_trace (run (idle sample_globals) (two_signals SIGINT SIGTERM 8 40)))) 3 = 2%nat /\
  drain_starts (m_trace (run (idle sample_globals) (two_signals SIGINT SIGTERM 8 40))) = 2%nat.
Proof. repeat split. Qed.

(** * Further properties *)

(** ** How main can end *)

Lemma event_loop_exit_codes (ws : list wake) :
  forall ec g c, registered g ->
  outcome_of (event_loop ws ec g) = Exit c ->
  c = ERROR_PRESSURE_POLL_FDS \/ c = ERROR_PRESSURE_FILE_GONE.
Proof.
  induction ws as [|w ws IH]; intros ec g c R.
  - rewrite event_loop_nil. destruct (_ =? 1); discriminate.
  - rewrite event_loop_cons. destruct (_ =? 1); [|discriminate].
    destruct (iteration_registered w ec g R) as (I1 & I2). unfold outcome_of in *.
    destruct (iteration w ec g) as [t [[ec'|] g'|c']]; cbn [snd] in *; try discriminate.
    + apply IH. exact (I1 _ _ eq_refl).
    + intros [= <-]. now apply I2.
Qed.

Lemma find_failed_none (reg : nat -> reg_in) (l : list nat) :
  find (register_failed reg) l = None <->
  forallb (fun i => negb (register_failed reg i)) l = true.
Proof.
  induction l as [|i l IH]; cbn; [tauto|].
  destruct (register_failed reg i); cbn; [split; discriminate | exact IH].
Qed.

Lemma register_trace_events (reg : nat -> reg_in) (i : nat) (g : globals) :
  forallb is_registration_event (register_trace reg i g) = true.
Proof. reflexivity. Qed.

(** The registration loop only touches files and the console. *)
Lemma register_all_events (reg : nat -> reg_in) (l : list nat) :
  forall g, configured g -> Forall (fun i => (i < SZ_IDX)%nat) l ->
  forallb is_registration_event (trace_of (for_each l (register reg) g)) = true.
Proof.
  induction l as [|i l IH]; intros g C F; [reflexivity|].
  inversion F as [|? ? Hi F']; subst.
  rewrite for_each_cons, bind_run, (register_run reg i g C Hi).
  destruct (open_failed reg i); [reflexivity|].
  destruct (write_failed reg i); unfold trace_of; cbn [fst].
  - now rewrite forallb_app, register_trace_events.
  - rewrite forallb_app, register_trace_events.
    exact (IH _ (configured_after_register reg i g C) F').
Qed.

(** main, by the way it goes: no pressure files; a registration that
    fails; a registration that succeeds and the loop that follows. *)
Lemma main_cases (e : env) :
  exists g1, configured g1 /\
  (e_stat e = -1 ->
   run_main e = (unsupported_trace e, Exit ERROR_KERNEL_UNSUPPORTED)) /\
  (e_stat e <> -1 ->
   match find (register_failed (e_reg e)) (seq 0 SZ_IDX) with
   | Some i =>
       run_main e =
         (startup_trace e ++ trace_of (poll_pressure_events (e_reg e) g1),
          Exit (if open_failed (e_reg e) i
                then ERROR_PRESSURE_OPEN else ERROR_PRESSURE_WRITE))
   | None =>
       exists g2, registered g2 /\
         outcome_of (poll_pressure_events (e_reg e) g1) = Ret tt g2 /\
         run_main e =
           (startup_trace e ++ trace_of (poll_pressure_events (e_reg e) g1) ++
              loop_banner ++ trace_of (event_loop (e_wakes e) [1; 1; 1] g2),
            outcome_of (event_loop (e_wakes e) [1; 1; 1] g2))
   end).
Proof.
  destruct (main_run e) as (g1 & C & E). exists g1. split; [exact C|]. split.
  - intros H. rewrite E. unfold unsupported_trace. rewrite H. reflexivity.
  - intros H. apply Z.eqb_neq in H. rewrite E, H. cbn zeta. unfold startup_trace.
    destruct (register_all (e_reg e) (seq 0 SZ_IDX) g1 C three_indices) as (_ & _ & O).
    pose proof (poll_pressure_events_registered (e_reg e) g1) as PR.
    unfold poll_pressure_events in *. unfold trace_of, outcome_of in *.
    destruct (find _ _) as [i|].
    + destruct (for_each _ _ g1) as [t [[] g2|c]]; cbn [fst snd] in *;
        destruct (open_failed (e_reg e) i); destruct O as (O & _);
        try discriminate O; now injection O as ->.
    + destruct O as (g2 & O & _).
      destruct (for_each _ _ g1) as [t [[] g'|c]]; cbn [fst snd] in *; [|discriminate O].
      injection O as ->. exists g2. split; [now apply PR|]. now split.
Qed.

(** X1.  If [stat] on /proc/pressure/cpu returns -1, main prints the
    kernel-version message and exits with code 1 before anything else:
    no file is opened, nothing is written, no handler is installed.
    Exit code 1 has no other cause. *)
Theorem unsupported_kernel_exits_first (e : env) :
  (e_stat e = -1 ->
   run_main e = (unsupported_trace e, Exit ERROR_KERNEL_UNSUPPORTED) /\
   opens (trace_of (run_main e)) = [] /\ writes (trace_of (run_main e)) = [] /\
   filter is_signal_call (trace_of (run_main e)) = []) /\
  (exit_status (outcome_of (run_main e)) = Some ERROR_KERNEL_UNSUPPORTED ->
   e_stat e = -1).
Proof.
  destruct (main_cases e) as (g1 & C & U & S). split.
  - intros H. rewrite (U H). repeat split.
  - intros H. apply exit_status_code in H; [|discriminate].
    destruct (Z.eq_dec (e_stat e) (-1)) as [E|N]; [exact E|exfalso].
    specialize (S N). destruct (find _ _) as [i|].
    + rewrite S in H. cbn in H. destruct (open_failed _ _); discriminate H.
    + destruct S as (g2 & R & _ & S). rewrite S in H. cbn [outcome_of snd] in H.
      destruct (event_loop_exit_codes _ _ _ _ R H) as [X|X]; discriminate X.
Qed.

Lemma unsupported_kernel_exits_first_witness :
  run_main unsupported_env =
    (unsupported_trace unsupported_env, Exit ERROR_KERNEL_UNSUPPORTED) /\
  opens (trace_of (run_main unsupported_env)) = [] /\
  writes (trace_of (run_main unsupported_env)) = [] /\
  filter is_signal_call (trace_of (run_main unsupported_env)) = [].
Proof. exact (proj1 (unsupported_kernel_exits_first unsupported_env) eq_refl). Defined.



(** ** More on registration *)

Lemma open_failed_iff (reg : nat -> reg_in) (i : nat) :
  open_failed reg i = true <-> rw_fd (reg i) < 0.
Proof. apply Z.ltb_lt. Qed.

(** X3.  An [open] of a pressure file that returns a negative value is
    fatal: the process exits with code 2 after a message naming the
    file; the domains before it were written, nothing is written for the
    failing domain or after it.  Exit code 2 of the registration has no
    other cause. *)
Theorem open_error_is_fatal (reg : nat -> reg_in) (i : nat) :
  (i < SZ_IDX)%nat ->
  reaches_open reg i = true ->
  (rw_fd (reg i) < 0 ->
   outcome_of (registration reg) = Exit ERROR_PRESSURE_OPEN /\
   last (trace_of (registration reg)) EFflush =
     EEprintf "Error open() pressure file %s:" [AStr (path_of i)] /\
   writes (trace_of (registration reg)) = map (written reg) (seq 0 i)) /\
  (outcome_of (registration reg) = Exit ERROR_PRESSURE_OPEN ->
   exists j, (j < SZ_IDX)%nat /\ reaches_open reg j = true /\ rw_fd (reg j) < 0).
Proof.
  intros Hi R. destruct (registration_run reg) as (W & _ & H). split.
  - intros O. apply open_failed_iff in O. rewrite W. clear W.
    revert H R. unfold reaches_open, register_failed, path_of.
    three i; cbn [seq SZ_IDX forallb find attempted]; rewrite ?O;
      repeat match goal with
             | |- context [open_failed reg ?j] => destruct (open_failed reg j) eqn:?
             | |- context [write_failed reg ?j] => destruct (write_failed reg j) eqn:?
             end; cbn; intros H R; try discriminate R;
      repeat match goal with
             | E : open_failed reg ?j = _ |- _ => rewrite E in H; clear E
             end; destruct H as (H1 & H2); repeat split; assumption.
  - revert H. unfold reaches_open, register_failed, SZ_IDX.
    cbn [seq forallb find].
    destruct (open_failed reg 0) eqn:O0, (write_failed reg 0) eqn:W0,
             (open_failed reg 1) eqn:O1, (write_failed reg 1) eqn:W1,
             (open_failed reg 2) eqn:O2, (write_failed reg 2) eqn:W2;
      cbn; rewrite ?O0, ?O1, ?O2; intros H E;
      try (destruct H as (H & _); rewrite H in E; discriminate E);
      try (destruct H as (g' & H & _); rewrite H in E; discriminate E);
      first [ exists 0%nat; cbn [seq forallb]; rewrite ?O0, ?W0; cbn;
              split; [lia | split; [reflexivity | now apply open_failed_iff]]
            | exists 1%nat; cbn [seq forallb]; rewrite ?O0, ?W0, ?O1, ?W1; cbn;
              split; [lia | split; [reflexivity | now apply open_failed_iff]]
            | exists 2%nat; cbn [seq forallb]; rewrite ?O0, ?W0, ?O1, ?W1, ?O2, ?W2; cbn;
              split; [lia | split; [reflexivity | now apply open_failed_iff]] ].
Qed.

Lemma open_error_is_fatal_witness :
  outcome_of (registration failed_open_reg) = Exit ERROR_PRESSURE_OPEN /\
  last (trace_of (registration failed_open_reg)) EFflush =
    EEprintf "Error open() pressure file %s:" [AStr "/proc/pressure/io"] /\
  writes (trace_of (registration failed_open_reg)) = [(3, c_bytes "some 50000 500000")].
Proof.
  apply (proj1 (open_error_is_fatal failed_open_reg FD_IO_IDX
                  ltac:(unfold FD_IO_IDX, SZ_IDX; lia) eq_refl)).
  reflexivity.
Defined.



Lemma closes_register_trace (reg : nat -> reg_in) (i : nat) (g : globals) :
  closes (register_trace reg i g) = [ro_fd (echo (reg i))].
Proof. reflexivity. Qed.






(** ** More on set_content_str *)

Lemma until_nul_text (l : list ascii) (n : nat) :
  Forall (fun c => c <> NUL) l -> (0 < n)%nat ->
  until_nul (l ++ repeat NUL n) = Some l.
Proof.
  intros F Hn. induction F as [|c l Hc F IH]; cbn.
  - destruct n; [lia|]. reflexivity.
  - apply Ascii.eqb_neq in Hc. now rewrite Hc, IH.
Qed.

(** X5.  set_content_str leaves in content_str the text of the file when
    the file is shorter than the array and holds no NUL.  It never looks
    at what [open] returned: when [open] failed it still calls [read] and
    [close] on the negative descriptor, and content_str is left holding
    the empty string.  Nothing but content_str changes. *)
Theorem content_is_file_text (r : read_in) (i : nat) (g g' : globals) :
  List.length (content_str g) = SZ_CONTENT ->
  outcome_of (set_content_str r i g) = Ret tt g' ->
  (plain_read r -> c_str (content_str g') = Some (string_of_list_ascii (file r))) /\
  (ro_fd r < 0 ->
   c_str (content_str g') = Some "" /\
   trace_of (set_content_str r i g) =
     [ EOpen (at_file g i) (Z.lor O_NONBLOCK O_RDONLY) (ro_fd r);
       ERead (ro_fd r) SZ_CONTENT (-1);
       EClose (ro_fd r) ]) /\
  g' = set_content (content_str g') g.
Proof.
  intros Hl H. destruct (content_after_read r i g g' Hl H) as (E & _).
  split; [|split].
  - intros (Hfd & Hlen & Hnul). rewrite E. unfold c_str, read_bytes.
    apply Z.ltb_ge in Hfd. rewrite Hfd, firstn_all2 by lia.
    rewrite until_nul_text; [reflexivity | exact Hnul | lia].
  - intros Hfd. apply Z.ltb_lt in Hfd. split.
    + rewrite E. unfold read_bytes. rewrite Hfd. reflexivity.
    + rewrite set_content_str_run. unfold read_ret. now rewrite Hfd.
  - revert H. rewrite set_content_str_run. intros [= <-]. reflexivity.
Qed.

Lemma content_is_file_text_witness :
  c_str (content_str (reported (sample_wake POLLPRI 0 0) FD_CPU_IDX sample_globals)) =
    Some "some avg10=1.00 avg60=0.00 avg300=0.00 total=51000".
Proof.
  apply (proj1 (content_is_file_text
                  (d_read (w_dom (sample_wake POLLPRI 0 0) FD_CPU_IDX)) FD_CPU_IDX
                  (set_time (d_now (w_dom (sample_wake POLLPRI 0 0) FD_CPU_IDX)) sample_globals)
                  _ eq_refl eq_refl)).
  split; [vm_compute; discriminate|]. split; [vm_compute; lia|].
  repeat constructor; discriminate.
Defined.

(** ** Wakes with nothing to report *)




(** ** When the handlers are installed *)

Lemma registration_events_no_signal (t : list event) :
  forallb is_registration_event t = true -> filter is_signal_call t = [].
Proof.
  induction t as [|e t IH]; [reflexivity|]. cbn [forallb filter].
  intros H. apply andb_prop in H as (He & Ht).
  destruct e; try discriminate He; exact (IH Ht).
Qed.

(** X7.  main installs sig_handler, for SIGTERM and then for SIGINT, only
    once the registration of the three domains has returned, right
    before the loop prints its banner: no call of [signal] comes before
    the last call of the registration.  When the registration fails the
    process ends with no handler installed. *)
Theorem handlers_installed_after_registration (e : env) :
  e_stat e <> -1 ->
  exists g1 rest, configured g1 /\
    trace_of (run_main e) =
      (startup_trace e ++ trace_of (poll_pressure_events (e_reg e) g1)) ++ rest /\
    filter is_signal_call
      (startup_trace e ++ trace_of (poll_pressure_events (e_reg e) g1)) = [] /\
    (registration_ok (e_reg e) = false -> rest = []) /\
    (registration_ok (e_reg e) = true ->
     exists t, rest = ESignal SIGTERM :: ESignal SIGINT ::
                      EPrintf "\nPolling for events...\n" [] :: t).
Proof.
  intros H. destruct (main_cases e) as (g1 & C & _ & S). specialize (S H).
  assert (N : filter is_signal_call
                (startup_trace e ++ trace_of (poll_pressure_events (e_reg e) g1)) = []).
  { rewrite filter_app. cbn [startup_trace filter is_signal_call app].
    apply registration_events_no_signal.
    exact (register_all_events (e_reg e) (seq 0 SZ_IDX) g1 C three_indices). }
  pose proof (find_failed_none (e_reg e) (seq 0 SZ_IDX)) as K.
  fold (registration_ok (e_reg e)) in K.
  destruct (find _ _) as [i|].
  - exists g1, []. split; [exact C|]. split; [now rewrite S, app_nil_r|].
    split; [exact N|]. split; [reflexivity|].
    intros O. apply K in O. discriminate O.
  - destruct S as (g2 & _ & _ & S).
    exists g1, (loop_banner ++ trace_of (event_loop (e_wakes e) [1; 1; 1] g2)).
    split; [exact C|]. split; [now rewrite S, <- app_assoc|].
    split; [exact N|]. split.
    + intros O. rewrite (proj1 K eq_refl) in O. discriminate O.
    + intros _. eexists. reflexivity.
Qed.

Lemma handlers_installed_after_registration_witness :
  exists g1 rest, configured g1 /\
    trace_of (run_main (sample_env [])) =
      (startup_trace (sample_env []) ++
       trace_of (poll_pressure_events (e_reg (sample_env [])) g1)) ++ rest /\
    filter is_signal_call
      (startup_trace (sample_env []) ++
       trace_of (poll_pressure_events (e_reg (sample_env [])) g1)) = [] /\
    (registration_ok (e_reg (sample_env [])) = false -> rest = []) /\
    (registration_ok (e_reg (sample_env [])) = true ->
     exists t, rest = ESignal SIGTERM :: ESignal SIGINT ::
                      EPrintf "\nPolling for events...\n" [] :: t).
Proof. apply (handlers_installed_after_registration (sample_env [])). discriminate. Defined.

(** ** The fields of a report line *)

Lemma report_of_line (e : event) :
  report_of e = option_map (fun r => (fst r, count_of_line (snd r))) (report_line e).
Proof.
  destruct e as [fmt l| | | | | | | | | | |]; try reflexivity.
  destruct l as [|[] [|[] [|[] [|[] [|]]]]]; try reflexivity.
  cbn. destruct (String.eqb fmt report_fmt); [|reflexivity].
  now destruct (domain_of_path _).
Qed.

Lemma reports_lines (t : list event) :
  reports t = map (fun r => (fst r, count_of_line (snd r))) (report_lines t).
Proof.
  unfold reports, report_lines. induction t as [|e t IH]; [reflexivity|].
  cbn [flat_map]. rewrite map_app, <- IH, report_of_line.
  now destruct (report_line e).
Qed.

Lemma counts_of_lines (i : nat) (t : list event) :
  counts_of i t = map count_of_line (lines_of i t).
Proof.
  unfold counts_of, lines_of. rewrite reports_lines.
  induction (report_lines t) as [|r l IH]; [reflexivity|].
  cbn [map filter fst]. destruct (Nat.eqb (fst r) i); cbn [map snd]; now rewrite IH.
Qed.

Lemma lines_of_none (i : nat) (t : list event) : counts_of i t = [] -> lines_of i t = [].
Proof. rewrite counts_of_lines. apply map_eq_nil. Qed.

Lemma lines_of_app (i : nat) (t1 t2 : list event) :
  lines_of i (t1 ++ t2) = lines_of i t1 ++ lines_of i t2.
Proof.
  unfold lines_of, report_lines. now rewrite flat_map_app, filter_app, map_app.
Qed.

Lemma registered_file (g : globals) (i : nat) :
  registered g -> at_file g i = path_of i.
Proof. intros ((Hf & _) & _). unfold at_file, path_of. now rewrite Hf. Qed.

Lemma lines_of_report_trace (w : wake) (i j : nat) (ec : list Z) (g : globals) :
  registered g -> (j < SZ_IDX)%nat ->
  lines_of i (report_trace w j ec g) =
    if Nat.eqb j i
    then [[AStr (path_of j); AInt (nth j ec 0); AStr (d_now (w_dom w j));
           ABuf (c_str (content_str (reported w j g)))]]
    else [].
Proof.
  intros R Hj. unfold lines_of, report_trace, report_lines.
  cbn [flat_map report_line app].
  change (String.eqb report_fmt report_fmt) with true. cbn iota.
  rewrite (registered_path g j R Hj), (registered_file g j R).
  cbn [option_map filter fst app]. now destruct (Nat.eqb j i).
Qed.

Lemma reported_content_length (w : wake) (j : nat) (g : globals) :
  List.length (content_str g) = SZ_CONTENT ->
  List.length (content_str (reported w j g)) = SZ_CONTENT.
Proof.
  intros Hl.
  exact (proj2 (content_after_read (d_read (w_dom w j)) j
                  (set_time (d_now (w_dom w j)) g) (reported w j g) Hl eq_refl)).
Qed.

Lemma reported_content_text (w : wake) (j : nat) (g : globals) :
  List.length (content_str g) = SZ_CONTENT -> plain_read (d_read (w_dom w j)) ->
  c_str (content_str (reported w j g)) =
    Some (string_of_list_ascii (file (d_read (w_dom w j)))).
Proof.
  intros Hl (Hfd & Hlen & Hnul).
  rewrite (proj1 (content_after_read (d_read (w_dom w j)) j
                    (set_time (d_now (w_dom w j)) g) (reported w j g) Hl eq_refl)).
  unfold c_str, read_bytes. apply Z.ltb_ge in Hfd. rewrite Hfd, firstn_all2 by lia.
  rewrite until_nul_text; [reflexivity | exact Hnul | lia].
Qed.

Lemma scan_line (w : wake) (i : nat) (l : list nat) :
  forall ec g, registered g -> continue_event_loop g = 1 ->
  List.length (content_str g) = SZ_CONTENT ->
  StronglySorted lt l -> Forall (fun j => (j < SZ_IDX)%nat) l ->
  List.length ec = SZ_IDX ->
  (forall j, In j l -> d_signal (w_dom w j) = None) ->
  (forall j, In j l -> d_signal_after (w_dom w j) = None) ->
  In i l -> distress (revents (at_fds g i)) = true ->
  (forall j, In j l -> (j < i)%nat -> file_gone (revents (at_fds g j)) = false) ->
  plain_read (d_read (w_dom w i)) ->
  lines_of i (trace_of (scan w l ec g)) =
    [[AStr (path_of i); AInt (nth i ec 0); AStr (d_now (w_dom w i));
      ABuf (Some (string_of_list_ascii (file (d_read (w_dom w i)))))]].
Proof.
  induction l as [|j l IH]; intros ec g R Hg Hc S F Hl Q T Hi D G P; [destruct Hi|].
  inversion F as [|? ? Hj F']; subst. apply StronglySorted_inv in S as (S' & Sj).
  rewrite scan_cons, bind_run, (scan_body_registered w j ec g R Hj). cbn zeta.
  rewrite (Q j (or_introl eq_refl)), (T j (or_introl eq_refl)).
  cbn [signalled signal_trace]. rewrite Hg.
  cbn [Z.eqb]. rewrite orb_false_r, !app_nil_l. unfold trace_of, outcome_of in *.
  assert (N' : NoDup l).
  { clear -S'. induction S' as [|a l S' IHS Ha]; constructor; [|exact IHS].
    intros H. rewrite Forall_forall in Ha. specialize (Ha a H). lia. }
  destruct Hi as [->|Hi].
  - destruct (distress_signalled _ D) as (D1 & D2). rewrite D1, D2. cbn [fst snd].
    rewrite lines_of_app, (lines_of_report_trace w i i ec g R Hj), Nat.eqb_refl.
    rewrite (reported_content_text w i g Hc P). cbn [app]. f_equal.
    apply lines_of_none.
    assert (Hl' : List.length (upd i (int_add (nth i ec 0) 1) ec) = SZ_IDX)
      by now rewrite upd_length.
    destruct (scan_counts w i l _ (reported w i g) R N' F' Hl') as [(C & _)|(C & _)].
    + exact C.
    + exfalso. rewrite Forall_forall in Sj. specialize (Sj i C). lia.
  - assert (Lt : (j < i)%nat) by (rewrite Forall_forall in Sj; exact (Sj i Hi)).
    rewrite (G j (or_introl eq_refl) Lt).
    assert (Q' : forall k, In k l -> d_signal (w_dom w k) = None)
      by (intros k Hk; apply Q; now right).
    assert (T' : forall k, In k l -> d_signal_after (w_dom w k) = None)
      by (intros k Hk; apply T; now right).
    assert (G' : forall k, In k l -> (k < i)%nat -> file_gone (revents (at_fds g k)) = false)
      by (intros k Hk; apply G; now right).
    destruct (revents (at_fds g j) =? 0); cbn [fst snd].
    + exact (IH ec g R Hg Hc S' F' Hl Q' T' Hi D G' P).
    + rewrite lines_of_app, (lines_of_report_trace w i j ec g R Hj).
      destruct (Nat.eqb_spec j i) as [E|_]; [lia|]. cbn [app].
      rewrite (IH _ (reported w j g) R Hg (reported_content_length w j g Hc) S' F');
        try assumption.
      * rewrite nth_upd_other by lia. reflexivity.
      * now rewrite upd_length.
Qed.

(** X8.  The report line of a domain in distress carries, in this order,
    the path of the domain's pressure file, the domain's count, the time
    [strftime] gave and the text of the file as it was read for this
    report (a file shorter than the array, with no NUL in it), whatever
    was reported for the domains before it in the same wake. *)
Theorem report_line_fields (w : wake) (i : nat) (ec : list Z) (g : globals) :
  registered g -> continue_event_loop g = 1 ->
  List.length (content_str g) = SZ_CONTENT ->
  quiet w -> 0 <= w_ret w -> (i < SZ_IDX)%nat -> List.length ec = SZ_IDX ->
  distress (d_revents (w_dom w i)) = true ->
  (forall j, (j < i)%nat -> file_gone (d_revents (w_dom w j)) = false) ->
  plain_read (d_read (w_dom w i)) ->
  lines_of i (trace_of (iteration w ec g)) =
    [[AStr (path_of i); AInt (nth i ec 0); AStr (d_now (w_dom w i));
      ABuf (Some (string_of_list_ascii (file (d_read (w_dom w i)))))]].
Proof.
  intros R Hg Hc Q Hn Hi Hl D G P. rewrite (quiet_iteration w ec g Hg Q Hn).
  assert (S : lines_of i (trace_of (scan w (seq 0 SZ_IDX) ec (polled w g))) =
              [[AStr (path_of i); AInt (nth i ec 0); AStr (d_now (w_dom w i));
                ABuf (Some (string_of_list_ascii (file (d_read (w_dom w i)))))]]).
  { apply scan_line; try assumption.
    - now apply registered_polled.
    - apply sorted_indices.
    - apply three_indices.
    - intros j Hj. apply (proj2 (proj1 Q)). apply in_seq in Hj. lia.
    - intros j Hj. apply (proj2 (proj2 Q)). apply in_seq in Hj. lia.
    - apply in_seq. lia.
    - now rewrite polled_revents.
    - intros j Hj Lt. rewrite polled_revents; [now apply G | exact R | lia]. }
  unfold trace_of in *.
  destruct (scan w _ ec _) as [t [ec' g'|c]]; exact S.
Qed.

Lemma report_line_fields_witness :
  lines_of FD_IO_IDX
    (trace_of (iteration (sample_wake POLLPRI POLLPRI 0) [4; 7; 1] sample_globals)) =
  [[AStr "/proc/pressure/io"; AInt 7; AStr "2026-01-01 00:00:00";
    ABuf (Some "some avg10=1.00 avg60=0.00 avg300=0.00 total=51000")]].
Proof.
  apply (report_line_fields (sample_wake POLLPRI POLLPRI 0) FD_IO_IDX [4; 7; 1]
           sample_globals sample_registered).
  - reflexivity.
  - reflexivity.
  - split; (split; [reflexivity | intros; reflexivity]).
  - vm_compute; discriminate.
  - unfold FD_IO_IDX, SZ_IDX; lia.
  - reflexivity.
  - reflexivity.
  - intros j Hj. unfold FD_IO_IDX in Hj. assert (j = 0%nat) as -> by lia. reflexivity.
  - split; [vm_compute; discriminate|]. split; [vm_compute; lia|].
    repeat constructor; discriminate.
Defined.

(** A report whose [open] fails is printed all the same, with an empty
    content; [read] and [close] are called on the descriptor -1. *)
Example unreadable_report_is_empty :
  lines_of FD_CPU_IDX
    (trace_of (iteration (unreadable_wake POLLPRI 0 0) [1; 1; 1] sample_globals)) =
    [[AStr "/proc/pressure/cpu"; AInt 1; AStr "2026-01-01 00:00:00"; ABuf (Some "")]] /\
  closes (trace_of (iteration (unreadable_wake POLLPRI 0 0) [1; 1; 1] sample_globals)) =
    [-1].
Proof. split; reflexivity. Qed.

(** ** What the exit with code 5 needs *)

Lemma revents_signalled (s : option Z) (g : globals) (i : nat) :
  revents (at_fds (signalled s g) i) = revents (at_fds g i).
Proof. now destruct s. Qed.

Lemma scan_exit_gone (w : wake) (l : list nat) :
  forall ec g c, registered g -> Forall (fun j => (j < SZ_IDX)%nat) l ->
  outcome_of (scan w l ec g) = Exit c ->
  exists i, In i l /\ file_gone (revents (at_fds g i)) = true.
Proof.
  induction l as [|j l IH]; intros ec g c R F; [discriminate|].
  inversion F as [|? ? Hj F']; subst.
  rewrite scan_cons, bind_run, (scan_body_registered w j ec g R Hj). cbn zeta.
  pose proof (registered_signalled (d_signal (w_dom w j)) g R) as R'.
  pose proof (registered_signalled (d_signal_after (w_dom w j)) _ R') as R''.
  unfold outcome_of in *.
  destruct (_ || _); cbn [fst snd].
  { intros H. destruct (IH _ _ _ R' F' H) as (i & Hi & E).
    exists i. split; [now right|]. now rewrite revents_signalled in E. }
  destruct (file_gone (revents (at_fds g j))) eqn:E; cbn [fst snd].
  { intros _. exists j. split; [now left|exact E]. }
  intros H. destruct (IH _ _ _ (registered_reported w j _ R'') F' H) as (i & Hi & Ei).
  exists i. split; [now right|].
  change (revents (at_fds (reported w j
            (signalled (d_signal_after (w_dom w j)) (signalled (d_signal (w_dom w j)) g))) i))
    with (revents (at_fds
            (signalled (d_signal_after (w_dom w j)) (signalled (d_signal (w_dom w j)) g)) i))
    in Ei.
  now rewrite !revents_signalled in Ei.
Qed.

Lemma iteration_exit_gone (w : wake) (ec : list Z) (g : globals) :
  registered g ->
  outcome_of (iteration w ec g) = Exit ERROR_PRESSURE_FILE_GONE ->
  exists i, (i < SZ_IDX)%nat /\ file_gone (d_revents (w_dom w i)) = true.
Proof.
  intros R. rewrite iteration_run. cbn zeta.
  pose proof (registered_signalled (w_signal w) g R) as R1.
  pose proof (registered_polled w _ R1) as R'.
  pose proof (registered_signalled (w_signal_after w) _ R') as R''.
  unfold outcome_of.
  destruct (_ =? 0); cbn [snd]; [discriminate|].
  destruct (_ <? 0); cbn [snd]; [discriminate|].
  pose proof (scan_exit_gone w (seq 0 SZ_IDX) ec _ ERROR_PRESSURE_FILE_GONE R''
                three_indices) as S.
  unfold outcome_of in S.
  destruct (scan w _ ec _) as [t [ec' g'|c]]; cbn [snd] in *; [discriminate|].
  intros [= ->]. destruct (S eq_refl) as (i & Hi & E). apply in_seq in Hi.
  exists i. split; [lia|].
  rewrite revents_signalled, (polled_revents w _ i R1) in E by lia. exact E.
Qed.

Lemma event_loop_exit_gone (ws : list wake) :
  forall ec g, registered g ->
  outcome_of (event_loop ws ec g) = Exit ERROR_PRESSURE_FILE_GONE ->
  exists w i, In w ws /\ (i < SZ_IDX)%nat /\ file_gone (d_revents (w_dom w i)) = true.
Proof.
  induction ws as [|w ws IH]; intros ec g R.
  - rewrite event_loop_nil. destruct (_ =? 1); discriminate.
  - rewrite event_loop_cons. destruct (_ =? 1); [|discriminate].
    destruct (iteration_registered w ec g R) as (I1 & _).
    pose proof (iteration_exit_gone w ec g R) as G.
    unfold outcome_of in *.
    destruct (iteration w ec g) as [t [[ec'|] g'|c']]; cbn [snd] in *; try discriminate.
    + intros H. destruct (IH _ _ (I1 _ _ eq_refl) H) as (w' & i & Hw & Hi & E).
      exists w', i. split; [now right|]. now split.
    + intros [= ->]. destruct (G eq_refl) as (i & Hi & E).
      exists w, i. split; [now left|]. now split.
Qed.

(** X9.  main exits with code 5 only when, in some wake, [poll] stored
    POLLERR in the [revents] of one of the three domains. *)
Theorem file_gone_exit_needs_pollerr (e : env) :
  exit_status (outcome_of (run_main e)) = Some ERROR_PRESSURE_FILE_GONE ->
  exists w i, In w (e_wakes e) /\ (i < SZ_IDX)%nat /\
              file_gone (d_revents (w_dom w i)) = true.
Proof.
  intros H. apply exit_status_code in H; [|discriminate].
  destruct (main_cases e) as (g1 & C & U & S).
  destruct (Z.eq_dec (e_stat e) (-1)) as [E|N].
  - rewrite (U E) in H. discriminate H.
  - specialize (S N). destruct (find _ _) as [i|].
    + rewrite S in H. cbn [outcome_of snd] in H.
      destruct (open_failed _ _); discriminate H.
    + destruct S as (g2 & R & _ & S). rewrite S in H. cbn [outcome_of snd] in H.
      exact (event_loop_exit_gone (e_wakes e) [1; 1; 1] g2 R H).
Qed.

Lemma file_gone_exit_needs_pollerr_witness :
  exists w i, In w [sample_wake 0 0 POLLERR] /\ (i < SZ_IDX)%nat /\
              file_gone (d_revents (w_dom w i)) = true.
Proof.
  apply (file_gone_exit_needs_pollerr (sample_env [sample_wake 0 0 POLLERR])).
  reflexivity.
Defined.
